(** * BOM merger: a shallow embedding of [main.py]

    The script reads every uploaded workbook into a pandas data frame,
    cleans four columns, concatenates the cleaned frames, groups the rows
    by (DESCRIPTION, LENGTH), sums QTY., keeps the first PART NUMBER of
    each group, drops the groups with an empty description and sorts.

    The embedding follows the script line by line.  What pandas does is
    written out as list functions:
    - a cell is missing ([NaN]), a text or a number.  Numbers are integers
      here; floating-point quantities, booleans and dates are not covered;
    - a data frame is a list of labelled columns, and only the four columns
      the script names matter after cleaning; a sheet is taken to have at
      least one column and labels that are pairwise distinct once stripped;
    - white space is the ASCII one; the other blanks of Unicode are not
      covered;
    - the Streamlit calls are recorded as events on a screen. *)

From Stdlib Require Import List ZArith Lia Bool Ascii String Sorted Permutation.
Import ListNotations.

Local Open Scope list_scope.

(** ** Cells and text *)

Inductive Cell : Type :=
| NaN
| Str (s : string)
| Num (z : Z).

Definition isna (c : Cell) : bool :=
  match c with NaN => true | _ => false end.

Definition notna (c : Cell) : bool := negb (isna c).

Definition cell_eqb (a b : Cell) : bool :=
  match a, b with
  | NaN, NaN => true
  | Str s, Str t => String.eqb s t
  | Num x, Num y => Z.eqb x y
  | _, _ => false
  end.

(** Python's [str.isspace] on the ASCII range: tab to carriage return,
    the four separators 28..31 and the blank. *)
Definition isspace (a : ascii) : bool :=
  let n := nat_of_ascii a in
  ((9 <=? n) && (n <=? 13)) || ((28 <=? n) && (n <=? 32)).

Fixpoint lstrip (s : string) : string :=
  match s with
  | EmptyString => EmptyString
  | String a s' => if isspace a then lstrip s' else s
  end.

Fixpoint rstrip (s : string) : string :=
  match s with
  | EmptyString => EmptyString
  | String a s' =>
      match rstrip s' with
      | EmptyString => if isspace a then EmptyString else String a EmptyString
      | t => String a t
      end
  end.

(** [str.strip()] with no argument. *)
Definition strip (s : string) : string := rstrip (lstrip s).

Fixpoint all_space (s : string) : bool :=
  match s with
  | EmptyString => true
  | String a s' => isspace a && all_space s'
  end.

(** ** Exceptions *)

Inductive Exc : Type :=
| ReadError
| KeyError (label : string)
| AttributeError.

Inductive result (A : Type) : Type :=
| Ok (a : A)
| Raise (e : Exc).

Arguments Ok {A} a.
Arguments Raise {A} e.

Definition rbind {A B : Type} (r : result A) (k : A -> result B) : result B :=
  match r with
  | Ok a => k a
  | Raise e => Raise e
  end.

Notation "'let?' x ':=' r 'in' k" := (rbind r (fun x => k))
  (at level 10, x name, r at level 100, k at level 200).

Definition is_ok {A : Type} (r : result A) : bool :=
  match r with Ok _ => true | Raise _ => false end.

(** ** Series and frames *)

Definition Series : Type := list Cell.

Definition Frame : Type := list (string * Series).

(** [Series.fillna(v)]. *)
Definition fill (v c : Cell) : Cell :=
  match c with NaN => v | _ => c end.

Definition fillna (v : Cell) (s : Series) : Series := map (fill v) s.

(** A column read from a sheet has a numeric dtype when it holds rows and
    none of them is a text; a column with no row has dtype object. *)
Definition is_numeric_dtype (s : Series) : bool :=
  match s with
  | [] => false
  | _ => forallb (fun c => match c with Str _ => false | _ => true end) s
  end.

(** One element under [.str.strip()]: a text is stripped, anything that is
    not a text comes out missing. *)
Definition strip_cell (c : Cell) : Cell :=
  match c with
  | Str t => Str (strip t)
  | _ => NaN
  end.

(** [s.str.strip()]: the [.str] accessor raises on a numeric column. *)
Definition str_strip (s : Series) : result Series :=
  if is_numeric_dtype s then Raise AttributeError else Ok (map strip_cell s).

(** The concrete reading of numbers used to run the model: decimal integer
    literals. *)
Definition digit_of (a : ascii) : option Z :=
  let n := nat_of_ascii a in
  if (48 <=? n) && (n <=? 57) then Some (Z.of_nat (n - 48)) else None.

Fixpoint digits (acc : Z) (s : string) : option Z :=
  match s with
  | EmptyString => Some acc
  | String a s' =>
      match digit_of a with
      | Some d => digits (10 * acc + d) s'
      | None => None
      end
  end.

Definition int_literal (s : string) : option Z :=
  match strip s with
  | EmptyString => None
  | String "-" t =>
      match t with
      | EmptyString => None
      | _ => option_map Z.opp (digits 0 t)
      end
  | t => digits 0 t
  end.

Definition digit_char (d : nat) : ascii := ascii_of_nat (48 + d).

Fixpoint nat_repr (fuel n : nat) (acc : string) : string :=
  match fuel with
  | O => acc
  | S fuel' =>
      let acc' := String (digit_char (n mod 10)) acc in
      if n / 10 =? 0 then acc' else nat_repr fuel' (n / 10) acc'
  end.

Definition int_repr (z : Z) : string :=
  let n := Z.abs_nat z in
  let body := nat_repr (S n) n EmptyString in
  if (z <? 0)%Z then String "-" body else body.

Section Pipeline.

(** [pd.to_numeric] on a text and [str] on a number belong to pandas and
    Python; the script only passes them through, so they are parameters. *)
Variable to_number : string -> option Z.
Variable number_repr : Z -> string.

(** [Series.astype(str)]: a missing value turns into the text [nan]. *)
Definition str_of_cell (c : Cell) : Cell :=
  match c with
  | NaN => Str "nan"
  | Str s => Str s
  | Num z => Str (number_repr z)
  end.

Definition astype_str (s : Series) : Series := map str_of_cell s.

(** [pd.to_numeric(_, errors="coerce")] on one element. *)
Definition coerce (c : Cell) : Cell :=
  match c with
  | NaN => NaN
  | Num z => Num z
  | Str s => match to_number s with Some z => Num z | None => NaN end
  end.

Definition to_numeric (s : Series) : Series := map coerce s.

(** The four per-cell cleanings of lines 49 to 56. *)
Definition clean_description (c : Cell) : Cell := strip_cell (fill (Str "") c).
Definition clean_length (c : Cell) : Cell := fill (Str "") c.
Definition clean_part_number (c : Cell) : Cell := strip_cell (str_of_cell c).
Definition clean_qty (c : Cell) : Cell := fill (Num 0) (coerce c).

(** [df.columns = df.columns.str.strip()]. *)
Definition strip_columns (df : Frame) : Frame :=
  map (fun col => (strip (fst col), snd col)) df.

(** [df[label]]; a label that is absent raises [KeyError]. *)
Fixpoint getitem (df : Frame) (label : string) : result Series :=
  match df with
  | [] => Raise (KeyError label)
  | (l, s) :: df' => if String.eqb l label then Ok s else getitem df' label
  end.

(** [df[label] = v]. *)
Fixpoint setitem (df : Frame) (label : string) (v : Series) : Frame :=
  match df with
  | [] => [(label, v)]
  | (l, s) :: df' =>
      if String.eqb l label then (l, v) :: df' else (l, s) :: setitem df' label v
  end.

(** Lines 46 to 56: the cleaning of one frame. *)
Definition clean (df : Frame) : result Frame :=
  let df := strip_columns df in
  let? d := getitem df "DESCRIPTION" in
  let? d := str_strip (fillna (Str "") d) in
  let df := setitem df "DESCRIPTION" d in
  let? l := getitem df "LENGTH" in
  let df := setitem df "LENGTH" (fillna (Str "") l) in
  let? p := getitem df "PART NUMBER" in
  let? p := str_strip (astype_str p) in
  let df := setitem df "PART NUMBER" p in
  let? q := getitem df "QTY." in
  Ok (setitem df "QTY." (fillna (Num 0) (to_numeric q))).


(** ** Rows and the combined table *)

Record Row : Type := mkRow {
  PART_NUMBER : Cell;
  DESCRIPTION : Cell;
  LENGTH : Cell;
  QTY : Cell
}.

Fixpoint zip_rows (p d l q : Series) : list Row :=
  match p, d, l, q with
  | a :: p', b :: d', c :: l', e :: q' => mkRow a b c e :: zip_rows p' d' l' q'
  | _, _, _, _ => []
  end.

Definition column (df : Frame) (label : string) : Series :=
  match getitem df label with
  | Ok s => s
  | Raise _ => []
  end.

(** The rows of a frame, read over the four columns the merge uses. *)
Definition records (df : Frame) : list Row :=
  zip_rows (column df "PART NUMBER") (column df "DESCRIPTION")
           (column df "LENGTH") (column df "QTY.").

(** [pd.concat(all_dataframes, ignore_index=True)]: frames in upload
    order, rows in sheet order. *)
Definition concat_frames (dfs : list Frame) : list Row := flat_map records dfs.

(** ** The order pandas sorts keys by

    Numbers come before texts and missing values come last; numbers are
    compared by value and texts character by character. *)

Definition cell_compare (a b : Cell) : comparison :=
  match a, b with
  | Num x, Num y => Z.compare x y
  | Num _, _ => Lt
  | Str _, Num _ => Gt
  | Str s, Str t => String.compare s t
  | Str _, NaN => Lt
  | NaN, NaN => Eq
  | NaN, _ => Gt
  end.

Definition Key : Type := (Cell * Cell)%type.

Definition key_of (r : Row) : Key := (DESCRIPTION r, LENGTH r).

Definition key_compare (a b : Key) : comparison :=
  match cell_compare (fst a) (fst b) with
  | Eq => cell_compare (snd a) (snd b)
  | c => c
  end.

Definition key_leb (a b : Key) : bool :=
  match key_compare a b with Gt => false | _ => true end.

Definition key_eqb (a b : Key) : bool :=
  cell_eqb (fst a) (fst b) && cell_eqb (snd a) (snd b).

Definition key_lt (a b : Key) : Prop := key_compare a b = Lt.

(** A stable insertion sort: an element goes in front of the first one
    that is not smaller. *)
Fixpoint insert_by {A : Type} (leb : A -> A -> bool) (x : A) (l : list A) : list A :=
  match l with
  | [] => [x]
  | y :: l' => if leb x y then x :: l else y :: insert_by leb x l'
  end.

Fixpoint sort_by {A : Type} (leb : A -> A -> bool) (l : list A) : list A :=
  match l with
  | [] => []
  | x :: l' => insert_by leb x (sort_by leb l')
  end.

(** ** Grouping and aggregation (lines 89 to 98) *)

(** [groupby] leaves out the rows with a missing key ([dropna=True]). *)
Definition has_key (r : Row) : bool := notna (DESCRIPTION r) && notna (LENGTH r).

(** The distinct keys, in order of first appearance. *)
Fixpoint unique (l : list Key) : list Key :=
  match l with
  | [] => []
  | k :: l' => k :: filter (fun k' => negb (key_eqb k' k)) (unique l')
  end.

(** The group keys, sorted ([sort=True]). *)
Definition group_keys (t : list Row) : list Key :=
  sort_by key_leb (unique (map key_of (filter has_key t))).

Definition members (k : Key) (t : list Row) : list Row :=
  filter (fun r => key_eqb (key_of r) k) t.

Definition number_of (c : Cell) : Z :=
  match c with Num z => z | _ => 0%Z end.

Definition total (s : Series) : Z := fold_right Z.add 0%Z (map number_of s).

(** ["sum"] over a numeric column: missing values are skipped. *)
Definition agg_sum (s : Series) : Cell := Num (total s).

(** ["first"]: the first value of the group that is not missing. *)
Definition agg_first (s : Series) : Cell :=
  match filter notna s with
  | c :: _ => c
  | [] => NaN
  end.

Definition aggregate (t : list Row) (k : Key) : Row :=
  let g := members k t in
  {| PART_NUMBER := agg_first (map PART_NUMBER g);
     DESCRIPTION := fst k;
     LENGTH := snd k;
     QTY := agg_sum (map QTY g) |}.

(** [combined_df.groupby([...]).agg({...}).reset_index()]. *)
Definition groupby_agg (t : list Row) : list Row := map (aggregate t) (group_keys t).

(** ** Final formatting (lines 102 to 111) *)

(** [merged_df[merged_df["DESCRIPTION"] != ""]]. *)
Definition not_blank (r : Row) : bool := negb (cell_eqb (DESCRIPTION r) (Str "")).

Definition drop_blank (t : list Row) : list Row := filter not_blank t.

(** [sort_values(by=["DESCRIPTION", "LENGTH"]).reset_index(drop=True)]. *)
Definition sort_values (t : list Row) : list Row :=
  sort_by (fun a b => key_leb (key_of a) (key_of b)) t.

(** Lines 89 to 111 on a combined table. *)
Definition merge_rows (combined : list Row) : list Row :=
  sort_values (drop_blank (groupby_agg combined)).

(** Lines 80 to 111 on tables given as rows. *)
Definition merge_tables (ts : list (list Row)) : list Row := merge_rows (List.concat ts).

Definition sum_qty (t : list Row) : Z := total (map QTY t).

(** ** The script's state and the Streamlit screen *)

Record Workbook : Type := mkWorkbook {
  sheet_name : string;
  header : list string;
  sheet_rows : list Row
}.

Definition final_columns : list string :=
  ["PART NUMBER"; "DESCRIPTION"; "LENGTH"; "QTY."]%string.

(** Lines 7 to 16; the encoding into bytes is left to the writer. *)
Definition to_excel (df : list Row) : Workbook :=
  {| sheet_name := "Merged_BOM"; header := final_columns; sheet_rows := df |}.

Inductive Event : Type :=
| st_info_count (n : nat)
| st_info (msg : string)
| st_warning (msg : string)
| st_error (file : string) (e : Exc)
| st_subheader (text : string)
| st_dataframe (df : Frame)
| st_merged (t : list Row)
| st_download_button (data : Workbook) (file_name mime : string).

(** An uploaded file: its name, what [pd.read_excel] gives at line 42, and
    what lines 66 to 69 come to: the frame read again and shown, or the
    exception raised on the way. *)
Record Upload : Type := mkUpload {
  name : string;
  first_read : result Frame;
  preview : result Frame
}.

Record State : Type := mkState {
  all_dataframes : list Frame;
  error_files : list string;
  screen : list Event
}.

Definition initial : State :=
  {| all_dataframes := []; error_files := []; screen := [] |}.

(** Statements of the script: they change the state and may raise; what was
    changed before an exception stays changed. *)
Definition M (A : Type) : Type := State -> result A * State.

Definition ret {A : Type} (a : A) : M A := fun st => (Ok a, st).

Definition bind {A B : Type} (m : M A) (k : A -> M B) : M B :=
  fun st =>
    match m st with
    | (Ok a, st') => k a st'
    | (Raise e, st') => (Raise e, st')
    end.

Notation "x <- m ;; k" := (bind m (fun x => k))
  (at level 61, m at next level, right associativity).
Notation "m ;; k" := (bind m (fun _ => k))
  (at level 61, right associativity).

Definition lift {A : Type} (r : result A) : M A := fun st => (r, st).

Definition try_except {A : Type} (body : M A) (handler : Exc -> M A) : M A :=
  fun st =>
    match body st with
    | (Ok a, st') => (Ok a, st')
    | (Raise e, st') => handler e st'
    end.

Definition emit (ev : Event) : M unit :=
  fun st =>
    (Ok tt, {| all_dataframes := all_dataframes st;
               error_files := error_files st;
               screen := screen st ++ [ev] |}).

Definition append_dataframe (df : Frame) : M unit :=
  fun st =>
    (Ok tt, {| all_dataframes := all_dataframes st ++ [df];
               error_files := error_files st;
               screen := screen st |}).

Definition append_error (file : string) : M unit :=
  fun st =>
    (Ok tt, {| all_dataframes := all_dataframes st;
               error_files := error_files st ++ [file];
               screen := screen st |}).

Definition get_dataframes : M (list Frame) := fun st => (Ok (all_dataframes st), st).

(** Lines 42 to 69, the body of the [try]. *)
Definition try_body (f : Upload) : M unit :=
  df <- lift (first_read f) ;;
  df <- lift (clean df) ;;
  append_dataframe df ;;
  emit (st_subheader ("File: " ++ name f)) ;;
  raw <- lift (preview f) ;;
  emit (st_dataframe raw).

(** Lines 71 to 73. *)
Definition except_handler (f : Upload) (e : Exc) : M unit :=
  append_error (name f) ;;
  emit (st_error (name f) e).

Definition process_file (f : Upload) : M unit :=
  try_except (try_body f) (except_handler f).

Fixpoint for_each (fs : list Upload) (body : Upload -> M unit) : M unit :=
  match fs with
  | [] => ret tt
  | f :: fs' => body f ;; for_each fs' body
  end.

Definition xlsx_mime : string :=
  "application/vnd.openxmlformats-officedocument.spreadsheetml.sheet".

(** Lines 75 to 124. *)
Definition merge_and_offer : M unit :=
  dfs <- get_dataframes ;;
  match dfs with
  | [] => emit (st_warning "No valid data could be processed from the uploaded files.")
  | _ =>
      let combined_df := concat_frames dfs in
      let merged_df := merge_rows combined_df in
      emit (st_subheader "Merged Bill of Materials") ;;
      emit (st_merged merged_df) ;;
      emit (st_download_button (to_excel merged_df) "merged_bom.xlsx" xlsx_mime)
  end.

(** Lines 33 to 127. *)
Definition main (uploaded_files : list Upload) : M unit :=
  match uploaded_files with
  | [] => emit (st_info "Please upload one or more Excel files to begin.")
  | _ =>
      emit (st_info_count (List.length uploaded_files)) ;;
      for_each uploaded_files process_file ;;
      merge_and_offer
  end.

Definition run (uploaded_files : list Upload) : State :=
  snd (main uploaded_files initial).

(** What the run holds once the loop is over. *)
Definition combined_df (uploaded_files : list Upload) : list Row :=
  concat_frames (all_dataframes (run uploaded_files)).

Definition merged_df (uploaded_files : list Upload) : list Row :=
  merge_rows (combined_df uploaded_files).

(** The normalized table of one file, when line 42 and the cleaning both
    go through. *)
Definition normalize (f : Upload) : result Frame :=
  let? df := first_read f in clean df.

Definition is_merged (ev : Event) : bool :=
  match ev with
  | st_merged _ | st_download_button _ _ _ => true
  | _ => false
  end.

(** ** Notions used to state the properties *)

(** The order a comparison function decides. *)
Definition le_of {A : Type} (leb : A -> A -> bool) (x y : A) : Prop := leb x y = true.

(** The final filter, read on a key. *)
Definition key_not_blank (k : Key) : bool := negb (cell_eqb (fst k) (Str "")).

(** Whether the key of a row is listed. *)
Definition key_in (ks : list Key) (r : Row) : bool := existsb (key_eqb (key_of r)) ks.

(** Whether the cleaning goes through, read off the raw frame: the four
    labels are there once stripped and the description column is not a
    numeric one. *)
Definition cleanable (df : Frame) : bool :=
  let df := strip_columns df in
  match getitem df "DESCRIPTION" with
  | Ok d => negb (is_numeric_dtype (fillna (Str "") d))
  | Raise _ => false
  end
  && is_ok (getitem df "LENGTH")
  && is_ok (getitem df "PART NUMBER")
  && is_ok (getitem df "QTY.").

(** What one file adds to [all_dataframes] and to [error_files]. *)
Definition appended (f : Upload) : list Frame :=
  match normalize f with
  | Ok df => [df]
  | Raise _ => []
  end.

Definition recorded_as_error (f : Upload) : bool :=
  negb (is_ok (normalize f) && is_ok (preview f)).

Definition reported (f : Upload) : list string :=
  if recorded_as_error f then [name f] else [].

Definition quiet (evs : list Event) : Prop := existsb is_merged evs = false.

(** The state when the loop of lines 40 to 73 is over. *)
Definition after_loop (fs : list Upload) : State :=
  snd (for_each fs process_file
         (snd (emit (st_info_count (List.length fs)) initial))).

(** The frame [df] with the cells of its quantity column replaced. *)
Definition with_qty (q : Series) (df : Frame) : Frame :=
  map (fun col =>
         if String.eqb (strip (fst col)) "QTY." then (fst col, q) else col) df.

(** A description cell of a sheet is blank when it is missing or holds
    white space only. *)
Definition blank (c : Cell) : bool :=
  match c with
  | NaN => true
  | Str s => all_space s
  | Num _ => false
  end.

(** ** Notions used to state further properties *)

(** Whether some header of the raw frame is the label once stripped. *)
Definition has_label (df : Frame) (label : string) : bool :=
  existsb (fun col => String.eqb (strip (fst col)) label) df.

(** The labels the cleaning rewrites. *)
Definition cleaned_labels : list string :=
  ["DESCRIPTION"; "LENGTH"; "PART NUMBER"; "QTY."]%string.

(** A row the merge counts: both key fields present and a description other
    than the empty text. *)
Definition counted (r : Row) : bool := has_key r && not_blank r.

(** The key and part number of a row, without its quantity. *)
Definition key_part (r : Row) : Key * Cell := (key_of r, PART_NUMBER r).

(** The file names of the errors shown on the screen, in order. *)
Definition errors_shown (evs : list Event) : list string :=
  flat_map (fun ev => match ev with st_error file _ => [file] | _ => [] end) evs.

(** The workbooks offered for download, in order. *)
Definition downloads (evs : list Event) : list Workbook :=
  flat_map (fun ev => match ev with st_download_button data _ _ => [data] | _ => [] end) evs.

(** The merged tables shown, in order. *)
Definition tables_shown (evs : list Event) : list (list Row) :=
  flat_map (fun ev => match ev with st_merged t => [t] | _ => [] end) evs.

(** A cell that is a text or missing. *)
Definition text_or_missing (c : Cell) : bool :=
  match c with Num _ => false | _ => true end.

(** A column that has rows, all of them numbers. *)
Definition all_numbers (s : Series) : bool :=
  match s with
  | [] => false
  | _ => forallb (fun c => match c with Num _ => true | _ => false end) s
  end.

(** The raw frames previewed on the screen, in order. *)
Definition previews (evs : list Event) : list Frame :=
  flat_map (fun ev => match ev with st_dataframe df => [df] | _ => [] end) evs.


(** ** Sample workbooks *)

Definition sheet (p d l q : Series) : Frame :=
  [("PART NUMBER", p); ("DESCRIPTION", d); ("LENGTH", l); ("QTY.", q)]%string.

Definition uploaded (file : string) (df : Frame) : Upload :=
  {| name := file; first_read := Ok df; preview := Ok df |}.

(** The two files of the scenario: one bracket row, then a bracket row and
    a screw row with no length. *)
Definition bracket_frame : Frame :=
  sheet [Str "P1"] [Str "Bracket"] [Str "10"] [Num 5].

Definition screw_frame : Frame :=
  sheet [Str "P1"; Str "P2"] [Str "Bracket"; Str "Screw"] [Str "10"; NaN]
        [Num 3; Num 100].

(** A sheet whose second description was typed as the number 42. *)
Definition mixed_frame : Frame :=
  sheet [Str "P1"; Str "P2"] [Str "Bracket"; Num 42] [Str "10"; Str "10"]
        [Num 5; Num 7].



(** A file that cannot be read. *)
Definition unreadable_upload : Upload :=
  {| name := "broken.xlsx"; first_read := Raise ReadError;
     preview := Raise ReadError |}.

(** A sheet with padded headers, padded cells, a missing length, a quantity
    typed as text and a column the merge does not use; and the same sheet
    once cleaned. *)
Definition padded_frame : Frame :=
  [(" PART NUMBER", [Str " P7 "]); ("DESCRIPTION ", [Str " Nut "]);
   ("LENGTH", [NaN]); ("QTY.", [Str "4"]); ("NOTE", [Str " keep "])]%string.

Definition padded_cleaned : Frame :=
  [("PART NUMBER", [Str "P7"]); ("DESCRIPTION", [Str "Nut"]);
   ("LENGTH", [Str ""]); ("QTY.", [Num 4]); ("NOTE", [Str " keep "])]%string.

(** * Properties *)

(** ** The order on cells and keys *)

Lemma ascii_compare_refl (a : ascii) : Ascii.compare a a = Eq.
Proof. unfold Ascii.compare. apply N.compare_refl. Qed.

Lemma ascii_compare_lt_trans (a b c : ascii) :
  Ascii.compare a b = Lt -> Ascii.compare b c = Lt -> Ascii.compare a c = Lt.
Proof.
  unfold Ascii.compare. rewrite !N.compare_lt_iff. lia.
Qed.

Lemma string_compare_refl (s : string) : String.compare s s = Eq.
Proof.
  induction s as [|a s IH]; simpl; [reflexivity|].
  now rewrite ascii_compare_refl.
Qed.

Lemma string_compare_lt_trans (s t u : string) :
  String.compare s t = Lt -> String.compare t u = Lt -> String.compare s u = Lt.
Proof.
  revert t u.
  induction s as [|a s IH]; intros [|b t] [|c u]; simpl; try congruence.
  destruct (Ascii.compare a b) eqn:Hab; try discriminate;
    destruct (Ascii.compare b c) eqn:Hbc; try discriminate; intros H1 H2.
  - apply Ascii.compare_eq_iff in Hab, Hbc. subst.
    rewrite ascii_compare_refl. eauto.
  - apply Ascii.compare_eq_iff in Hab. subst. now rewrite Hbc.
  - apply Ascii.compare_eq_iff in Hbc. subst. now rewrite Hab.
  - now rewrite (ascii_compare_lt_trans _ _ _ Hab Hbc).
Qed.

Lemma cell_compare_eq (a b : Cell) : cell_compare a b = Eq -> a = b.
Proof.
  destruct a, b; simpl; try discriminate; intros H.
  - reflexivity.
  - now apply String.compare_eq_iff in H; subst.
  - now apply Z.compare_eq in H; subst.
Qed.

Lemma cell_compare_refl (a : Cell) : cell_compare a a = Eq.
Proof.
  destruct a; simpl; auto using string_compare_refl, Z.compare_refl.
Qed.

Lemma cell_compare_antisym (a b : Cell) :
  cell_compare b a = CompOpp (cell_compare a b).
Proof.
  destruct a, b; simpl; auto using String.compare_antisym, Z.compare_antisym.
Qed.

Lemma cell_compare_lt_trans (a b c : Cell) :
  cell_compare a b = Lt -> cell_compare b c = Lt -> cell_compare a c = Lt.
Proof.
  destruct a, b, c; simpl; try congruence.
  - apply string_compare_lt_trans.
  - rewrite !Z.compare_lt_iff. lia.
Qed.

Lemma key_compare_eq (a b : Key) : key_compare a b = Eq -> a = b.
Proof.
  destruct a as [a1 a2], b as [b1 b2]. unfold key_compare. simpl.
  destruct (cell_compare a1 b1) eqn:H1; try discriminate.
  intros H2. apply cell_compare_eq in H1, H2. now subst.
Qed.

Lemma key_compare_refl (a : Key) : key_compare a a = Eq.
Proof.
  unfold key_compare. now rewrite !cell_compare_refl.
Qed.

Lemma key_compare_antisym (a b : Key) :
  key_compare b a = CompOpp (key_compare a b).
Proof.
  unfold key_compare.
  rewrite (cell_compare_antisym (fst a) (fst b)).
  destruct (cell_compare (fst a) (fst b)); simpl; auto using cell_compare_antisym.
Qed.

Lemma key_lt_trans (a b c : Key) : key_lt a b -> key_lt b c -> key_lt a c.
Proof.
  unfold key_lt, key_compare.
  destruct (cell_compare (fst a) (fst b)) eqn:Hab; try discriminate;
    destruct (cell_compare (fst b) (fst c)) eqn:Hbc; try discriminate;
    intros H1 H2.
  - apply cell_compare_eq in Hab, Hbc. rewrite Hab, Hbc, cell_compare_refl.
    eapply cell_compare_lt_trans; eauto.
  - apply cell_compare_eq in Hab. now rewrite Hab, Hbc.
  - apply cell_compare_eq in Hbc. now rewrite <- Hbc, Hab.
  - now rewrite (cell_compare_lt_trans _ _ _ Hab Hbc).
Qed.

Lemma key_lt_irrefl (a : Key) : ~ key_lt a a.
Proof. unfold key_lt. now rewrite key_compare_refl. Qed.

Lemma key_leb_total (a b : Key) : key_leb a b = false -> key_leb b a = true.
Proof.
  unfold key_leb. rewrite (key_compare_antisym a b).
  destruct (key_compare a b); simpl; congruence.
Qed.

Lemma key_leb_lt (a b : Key) : key_leb a b = true -> a <> b -> key_lt a b.
Proof.
  unfold key_leb, key_lt. intros H Hne.
  destruct (key_compare a b) eqn:Hc; try congruence.
  now apply key_compare_eq in Hc.
Qed.

Lemma key_lt_leb (a b : Key) : key_lt a b -> key_leb a b = true.
Proof. unfold key_lt, key_leb. now intros ->. Qed.

Lemma key_leb_trans (a b c : Key) :
  key_leb a b = true -> key_leb b c = true -> key_leb a c = true.
Proof.
  unfold key_leb. intros H1 H2.
  destruct (key_compare a b) eqn:Hab; try discriminate.
  - apply key_compare_eq in Hab. now subst.
  - destruct (key_compare b c) eqn:Hbc; try discriminate.
    + apply key_compare_eq in Hbc. subst. now rewrite Hab.
    + now rewrite (key_lt_trans _ _ _ Hab Hbc).
Qed.

Lemma cell_eqb_eq (a b : Cell) : cell_eqb a b = true <-> a = b.
Proof.
  destruct a, b; simpl; split; try congruence; intros H.
  - apply String.eqb_eq in H. now subst.
  - inversion H. apply String.eqb_refl.
  - apply Z.eqb_eq in H. now subst.
  - inversion H. apply Z.eqb_refl.
Qed.

Lemma key_eqb_eq (a b : Key) : key_eqb a b = true <-> a = b.
Proof.
  destruct a, b. unfold key_eqb. simpl.
  rewrite andb_true_iff, !cell_eqb_eq. split.
  - now intros [-> ->].
  - intros H. now inversion H.
Qed.

Lemma key_eqb_refl (a : Key) : key_eqb a a = true.
Proof. now apply key_eqb_eq. Qed.

Lemma key_eqb_neq (a b : Key) : key_eqb a b = false <-> a <> b.
Proof.
  rewrite <- key_eqb_eq. destruct (key_eqb a b); split; congruence.
Qed.

(** ** The insertion sort *)

Section Sorting.

Variable A : Type.
Variable leb : A -> A -> bool.

Hypothesis leb_total : forall x y, leb x y = false -> leb y x = true.
Hypothesis leb_trans : forall x y z, leb x y = true -> leb y z = true -> leb x z = true.

Lemma insert_by_In (x y : A) (l : list A) :
  In y (insert_by leb x l) <-> y = x \/ In y l.
Proof.
  induction l as [|z l IH]; simpl.
  - intuition.
  - destruct (leb x z); simpl; rewrite ?IH; intuition.
Qed.

Lemma sort_by_In (y : A) (l : list A) : In y (sort_by leb l) <-> In y l.
Proof.
  induction l as [|x l IH]; simpl; [tauto|].
  rewrite insert_by_In, IH. intuition.
Qed.

Lemma insert_by_sorted (x : A) (l : list A) :
  StronglySorted (le_of leb) l -> StronglySorted (le_of leb) (insert_by leb x l).
Proof.
  induction 1 as [|y l Hs IH Hall]; simpl.
  - repeat constructor.
  - destruct (leb x y) eqn:Hxy.
    + constructor; [now constructor|].
      constructor; [exact Hxy|].
      rewrite Forall_forall in *. intros z Hz.
      eapply leb_trans; [exact Hxy|]. now apply Hall.
    + constructor; [exact IH|].
      rewrite Forall_forall in *. intros z Hz.
      apply insert_by_In in Hz. destruct Hz as [->|Hz].
      * now apply leb_total.
      * now apply Hall.
Qed.

Lemma sort_by_sorted (l : list A) : StronglySorted (le_of leb) (sort_by leb l).
Proof.
  induction l as [|x l IH]; simpl.
  - constructor.
  - now apply insert_by_sorted.
Qed.

Lemma insert_by_head (x : A) (l : list A) :
  Forall (le_of leb x) l -> insert_by leb x l = x :: l.
Proof.
  destruct l as [|y l]; simpl; [reflexivity|].
  intros H. inversion H as [|? ? Hxy _]; subst.
  unfold le_of in Hxy. now rewrite Hxy.
Qed.

(** Sorting a sorted list changes nothing. *)
Lemma sort_by_fixed (l : list A) : StronglySorted (le_of leb) l -> sort_by leb l = l.
Proof.
  induction 1 as [|x l Hs IH Hall]; simpl; [reflexivity|].
  rewrite IH. now apply insert_by_head.
Qed.

Lemma insert_by_NoDup (x : A) (l : list A) :
  NoDup l -> ~ In x l -> NoDup (insert_by leb x l).
Proof.
  induction l as [|y l IH]; simpl; intros Hnd Hx.
  - constructor; [tauto|constructor].
  - destruct (leb x y).
    + constructor; [simpl; tauto|exact Hnd].
    + inversion Hnd as [|? ? Hy Hl]; subst.
      constructor.
      * rewrite insert_by_In. intros [->|H]; tauto.
      * apply IH; tauto.
Qed.

Lemma sort_by_NoDup (l : list A) : NoDup l -> NoDup (sort_by leb l).
Proof.
  induction 1 as [|x l Hx Hnd IH]; simpl.
  - constructor.
  - apply insert_by_NoDup; [exact IH|]. now rewrite sort_by_In.
Qed.

End Sorting.

(** ** Group keys *)

Lemma unique_In (k : Key) (l : list Key) : In k (unique l) <-> In k l.
Proof.
  induction l as [|x l IH]; simpl; [tauto|].
  rewrite filter_In, IH, negb_true_iff, key_eqb_neq.
  destruct (key_eqb k x) eqn:E.
  - apply key_eqb_eq in E. subst. tauto.
  - apply key_eqb_neq in E. split; [tauto|]. intros [H|H]; [congruence|tauto].
Qed.

Lemma NoDup_filter {A : Type} (f : A -> bool) (l : list A) :
  NoDup l -> NoDup (filter f l).
Proof.
  induction 1 as [|x l Hx Hnd IH]; simpl; [constructor|].
  destruct (f x); [constructor|]; auto.
  rewrite filter_In. tauto.
Qed.

Lemma unique_NoDup (l : list Key) : NoDup (unique l).
Proof.
  induction l as [|x l IH]; simpl; constructor.
  - rewrite filter_In, negb_true_iff, key_eqb_neq. tauto.
  - now apply NoDup_filter.
Qed.

Lemma unique_fixed (l : list Key) : NoDup l -> unique l = l.
Proof.
  induction 1 as [|x l Hx Hnd IH]; simpl; [reflexivity|].
  rewrite IH. f_equal.
  apply forallb_filter_id, forallb_forall. intros k Hk.
  rewrite negb_true_iff, key_eqb_neq. congruence.
Qed.

Lemma sorted_lt_of_le (l : list Key) :
  StronglySorted (le_of key_leb) l -> NoDup l -> StronglySorted key_lt l.
Proof.
  induction 1 as [|x l Hs IH Hall]; intros Hnd; constructor;
    inversion Hnd as [|? ? Hx Hl]; subst; auto.
  rewrite Forall_forall in *. intros y Hy.
  apply key_leb_lt; [now apply Hall|congruence].
Qed.

Lemma sorted_le_of_lt (l : list Key) :
  StronglySorted key_lt l -> StronglySorted (le_of key_leb) l.
Proof.
  induction 1 as [|x l Hs IH Hall]; constructor; auto.
  eapply Forall_impl; [|exact Hall]. intros y. apply key_lt_leb.
Qed.

Lemma sorted_lt_NoDup (l : list Key) : StronglySorted key_lt l -> NoDup l.
Proof.
  induction 1 as [|x l Hs IH Hall]; constructor; auto.
  intros Hin. rewrite Forall_forall in Hall.
  exact (key_lt_irrefl x (Hall x Hin)).
Qed.

Lemma sorted_filter {A : Type} (R : A -> A -> Prop) (f : A -> bool) (l : list A) :
  StronglySorted R l -> StronglySorted R (filter f l).
Proof.
  induction 1 as [|x l Hs IH Hall]; simpl; [constructor|].
  destruct (f x); [constructor|]; auto.
  rewrite Forall_forall in *. intros y Hy. apply filter_In in Hy. now apply Hall.
Qed.

Lemma group_keys_In (t : list Row) (k : Key) :
  In k (group_keys t) <-> exists r, In r t /\ has_key r = true /\ key_of r = k.
Proof.
  unfold group_keys. rewrite sort_by_In, unique_In, in_map_iff.
  split; intros [r H]; exists r; rewrite filter_In in *; tauto.
Qed.

Lemma group_keys_sorted (t : list Row) : StronglySorted key_lt (group_keys t).
Proof.
  unfold group_keys. apply sorted_lt_of_le.
  - apply sort_by_sorted; [exact key_leb_total|exact key_leb_trans].
  - apply sort_by_NoDup, unique_NoDup.
Qed.

Lemma group_keys_notna (t : list Row) (k : Key) :
  In k (group_keys t) -> notna (fst k) = true /\ notna (snd k) = true.
Proof.
  rewrite group_keys_In. intros (r & _ & Hk & <-).
  unfold has_key in Hk. now apply andb_true_iff in Hk.
Qed.

(** ** The merged table *)

Lemma key_of_aggregate (t : list Row) (k : Key) : key_of (aggregate t k) = k.
Proof. now destruct k. Qed.

Lemma map_key_groupby (t : list Row) : map key_of (groupby_agg t) = group_keys t.
Proof.
  unfold groupby_agg. rewrite map_map.
  rewrite (map_ext _ (fun k => k)); [apply map_id|apply key_of_aggregate].
Qed.

Lemma map_filter_comm {A B : Type} (f : A -> B) (p : B -> bool) (l : list A) :
  map f (filter (fun x => p (f x)) l) = filter p (map f l).
Proof.
  induction l as [|x l IH]; simpl; [reflexivity|].
  destruct (p (f x)); simpl; now rewrite IH.
Qed.

Lemma map_key_drop_blank (t : list Row) :
  map key_of (drop_blank t) = filter key_not_blank (map key_of t).
Proof.
  unfold drop_blank. rewrite <- map_filter_comm. reflexivity.
Qed.

Lemma sort_values_fixed (t : list Row) :
  StronglySorted key_lt (map key_of t) -> sort_values t = t.
Proof.
  intros H. apply sort_by_fixed.
  apply sorted_le_of_lt in H.
  induction t as [|r t IH]; simpl in *; [constructor|].
  inversion H as [|? ? Hs Hall]; subst. constructor; [now apply IH|].
  rewrite Forall_forall in *. intros y Hy. apply Hall. now apply in_map.
Qed.

Lemma drop_blank_sorted (t : list Row) :
  StronglySorted key_lt (map key_of (drop_blank (groupby_agg t))).
Proof.
  rewrite map_key_drop_blank, map_key_groupby.
  apply sorted_filter, group_keys_sorted.
Qed.

(** The final sort finds the table already in order: grouping sorted the
    keys and dropping rows keeps the order. *)
Lemma merge_rows_eq (t : list Row) : merge_rows t = drop_blank (groupby_agg t).
Proof.
  unfold merge_rows. apply sort_values_fixed, drop_blank_sorted.
Qed.

Lemma merge_rows_keys (t : list Row) :
  map key_of (merge_rows t) = filter key_not_blank (group_keys t).
Proof.
  now rewrite merge_rows_eq, map_key_drop_blank, map_key_groupby.
Qed.

Lemma merge_rows_sorted (t : list Row) :
  StronglySorted key_lt (map key_of (merge_rows t)).
Proof.
  rewrite merge_rows_eq. apply drop_blank_sorted.
Qed.

Lemma merge_rows_In (t : list Row) (o : Row) :
  In o (merge_rows t) <->
  exists k, In k (group_keys t) /\ key_not_blank k = true /\ o = aggregate t k.
Proof.
  rewrite merge_rows_eq. unfold drop_blank, groupby_agg.
  rewrite filter_In, in_map_iff. split.
  - intros [(k & <- & Hk) Hb]. exists k. repeat split; auto.
  - intros (k & Hk & Hb & ->). split; [now exists k|].
    unfold not_blank. now rewrite <- (key_of_aggregate t k) in Hb.
Qed.

Lemma filter_none {A : Type} (f : A -> bool) (l : list A) :
  (forall x, In x l -> f x = false) -> filter f l = [].
Proof.
  induction l as [|x l IH]; simpl; intros H; [reflexivity|].
  rewrite (H x) by tauto. apply IH. intros y Hy. apply H. tauto.
Qed.

Lemma members_single (t : list Row) (r : Row) :
  NoDup (map key_of t) -> In r t -> members (key_of r) t = [r].
Proof.
  unfold members.
  induction t as [|x t IH]; simpl; intros Hnd Hin; [tauto|].
  inversion Hnd as [|? ? Hx Hl]; subst.
  destruct Hin as [->|Hin].
  - rewrite key_eqb_refl. f_equal.
    apply filter_none. intros y Hy.
    apply key_eqb_neq. intros E. apply Hx. rewrite <- E. now apply in_map.
  - destruct (key_eqb (key_of x) (key_of r)) eqn:E.
    + apply key_eqb_eq in E. exfalso. apply Hx. rewrite E. now apply in_map.
    + now apply IH.
Qed.

Lemma agg_first_single (c : Cell) : agg_first [c] = c.
Proof. now destruct c. Qed.

Lemma merge_rows_qty_num (t : list Row) (o : Row) :
  In o (merge_rows t) -> exists z, QTY o = Num z.
Proof.
  rewrite merge_rows_In. intros (k & _ & _ & ->).
  exists (total (map QTY (members k t))). reflexivity.
Qed.

Lemma merge_rows_has_key (t : list Row) (o : Row) :
  In o (merge_rows t) -> has_key o = true.
Proof.
  rewrite merge_rows_In. intros (k & Hk & _ & ->).
  apply group_keys_notna in Hk. unfold has_key. simpl.
  now apply andb_true_iff.
Qed.

Lemma merge_rows_not_blank (t : list Row) (o : Row) :
  In o (merge_rows t) -> not_blank o = true.
Proof.
  rewrite merge_rows_eq. unfold drop_blank. rewrite filter_In. tauto.
Qed.

(** A table with distinct, sorted, present keys and numeric quantities is
    a fixed point of the merge. *)
Lemma merge_rows_fixed (t : list Row) :
  StronglySorted key_lt (map key_of t) ->
  (forall r, In r t -> has_key r = true) ->
  (forall r, In r t -> not_blank r = true) ->
  (forall r, In r t -> exists z, QTY r = Num z) ->
  merge_rows t = t.
Proof.
  intros Hs Hk Hb Hq.
  assert (Hnd : NoDup (map key_of t)) by now apply sorted_lt_NoDup.
  assert (Hkeys : group_keys t = map key_of t).
  { unfold group_keys.
    rewrite (forallb_filter_id has_key t) by (now apply forallb_forall).
    rewrite unique_fixed by exact Hnd.
    apply sort_by_fixed. now apply sorted_le_of_lt. }
  rewrite merge_rows_eq. unfold groupby_agg. rewrite Hkeys, map_map.
  rewrite (map_ext_in _ (fun r => r)).
  - rewrite map_id. unfold drop_blank.
    apply forallb_filter_id, forallb_forall. exact Hb.
  - intros r Hr. unfold aggregate.
    rewrite (members_single t r Hnd Hr). simpl.
    destruct (Hq r Hr) as [z Hz]. destruct r as [p d l q]. simpl in *.
    subst q. rewrite agg_first_single. unfold agg_sum, total. simpl.
    now rewrite Z.add_0_r.
Qed.

(** ** Quantities *)

Lemma merge_rows_qty (t : list Row) (o : Row) :
  In o (merge_rows t) -> QTY o = Num (sum_qty (members (key_of o) t)).
Proof.
  rewrite merge_rows_In. intros (k & _ & _ & ->).
  now rewrite key_of_aggregate.
Qed.

Lemma merge_rows_complete (t : list Row) (r : Row) :
  In r t -> has_key r = true -> not_blank r = true ->
  exists o, In o (merge_rows t) /\ key_of o = key_of r.
Proof.
  intros Hin Hk Hb. exists (aggregate t (key_of r)).
  split; [|apply key_of_aggregate].
  apply merge_rows_In. exists (key_of r). repeat split; auto.
  apply group_keys_In. eauto.
Qed.

Lemma sum_qty_cons (r : Row) (t : list Row) :
  sum_qty (r :: t) = (number_of (QTY r) + sum_qty t)%Z.
Proof. reflexivity. Qed.

Lemma existsb_key_false (k : Key) (ks : list Key) :
  ~ In k ks -> existsb (key_eqb k) ks = false.
Proof.
  intros H. destruct (existsb (key_eqb k) ks) eqn:E; [|reflexivity].
  apply existsb_exists in E. destruct E as (x & Hx & E).
  apply key_eqb_eq in E. now subst.
Qed.

(** Summing group by group counts every row whose key is listed once. *)
Lemma sum_over_groups (ks : list Key) (t : list Row) :
  NoDup ks ->
  fold_right Z.add 0%Z (map (fun k => sum_qty (members k t)) ks) =
  sum_qty (filter (key_in ks) t).
Proof.
  intros Hnd. induction t as [|r t IH].
  - simpl. induction ks as [|k ks IHk]; simpl; [reflexivity|].
    inversion Hnd; subst. now rewrite IHk.
  - assert (Hstep :
      fold_right Z.add 0%Z (map (fun k => sum_qty (members k (r :: t))) ks) =
      ((if key_in ks r then number_of (QTY r) else 0) +
       fold_right Z.add 0%Z (map (fun k => sum_qty (members k t)) ks))%Z).
    { clear IH. unfold key_in.
      induction ks as [|k ks IHk]; cbn [map fold_right existsb]; [reflexivity|].
      inversion Hnd as [|? ? Hk Hks]; subst. rewrite (IHk Hks).
      unfold members at 1. cbn [filter]. fold (members k t).
      destruct (key_eqb (key_of r) k) eqn:E; cbn [orb].
      - apply key_eqb_eq in E. subst k.
        rewrite (existsb_key_false _ _ Hk), sum_qty_cons. lia.
      - lia. }
    rewrite Hstep, IH. simpl filter.
    destruct (key_in ks r); [rewrite sum_qty_cons|]; lia.
Qed.

Lemma sum_qty_aggregate (t : list Row) (ks : list Key) :
  sum_qty (map (aggregate t) ks) =
  fold_right Z.add 0%Z (map (fun k => sum_qty (members k t)) ks).
Proof.
  induction ks as [|k ks IH]; simpl; [reflexivity|].
  rewrite sum_qty_cons, IH. reflexivity.
Qed.

Lemma filter_map_comm {A B : Type} (f : A -> B) (p : A -> bool) (q : B -> bool)
      (l : list A) :
  (forall x, q (f x) = p x) -> filter q (map f l) = map f (filter p l).
Proof.
  intros H. induction l as [|x l IH]; simpl; [reflexivity|].
  rewrite H. destruct (p x); simpl; now rewrite IH.
Qed.

(** Total quantity: the merged table carries exactly the quantities of the
    rows that have both key fields present and a description other than
    the empty text. *)
Lemma merge_rows_total (t : list Row) :
  sum_qty (merge_rows t) =
  sum_qty (filter (fun r => has_key r && not_blank r) t).
Proof.
  rewrite merge_rows_eq. unfold drop_blank, groupby_agg.
  rewrite (filter_map_comm (aggregate t) key_not_blank not_blank)
    by (intros k; unfold not_blank; now rewrite <- (key_of_aggregate t k) at 2).
  rewrite sum_qty_aggregate, sum_over_groups
    by (apply NoDup_filter, sorted_lt_NoDup, group_keys_sorted).
  f_equal. apply filter_ext_in. intros r Hr. unfold key_in.
  destruct (has_key r && not_blank r) eqn:E.
  - apply andb_true_iff in E. destruct E as [Hk Hb].
    apply existsb_exists. exists (key_of r). split; [|apply key_eqb_refl].
    apply filter_In. split; [apply group_keys_In; eauto|exact Hb].
  - apply not_true_is_false. intros H.
    apply existsb_exists in H. destruct H as (k & Hk & Ek).
    apply key_eqb_eq in Ek. subst k. apply filter_In in Hk.
    destruct Hk as [Hk Hb]. apply group_keys_In in Hk.
    destruct Hk as (r' & _ & Hk' & Ek).
    unfold has_key, key_of in *. inversion Ek as [[E1 E2]].
    rewrite E1, E2 in Hk'. unfold not_blank in E. unfold key_not_blank in Hb.
    simpl in Hb. rewrite Hk', Hb in E. discriminate.
Qed.

(** ** Cleaning one frame *)

Lemma getitem_setitem_same (df : Frame) (a : string) (v : Series) :
  getitem (setitem df a v) a = Ok v.
Proof.
  induction df as [|[l s] df IH]; simpl.
  - now rewrite String.eqb_refl.
  - destruct (String.eqb l a) eqn:E; simpl; rewrite E; auto.
Qed.

Lemma getitem_setitem_other (df : Frame) (a b : string) (v : Series) :
  a <> b -> getitem (setitem df a v) b = getitem df b.
Proof.
  intros Hab. induction df as [|[l s] df IH]; simpl.
  - apply String.eqb_neq in Hab. now rewrite Hab.
  - destruct (String.eqb l a) eqn:E; simpl.
    + apply String.eqb_eq in E. subst l.
      apply String.eqb_neq in Hab. now rewrite Hab.
    + now rewrite IH.
Qed.

Lemma astype_str_not_numeric (s : Series) : is_numeric_dtype (astype_str s) = false.
Proof.
  destruct s as [|c s]; [reflexivity|]. simpl. now destruct c.
Qed.

Lemma str_strip_astype (s : Series) :
  str_strip (astype_str s) = Ok (map clean_part_number s).
Proof.
  unfold str_strip. rewrite astype_str_not_numeric.
  unfold astype_str. now rewrite map_map.
Qed.

Ltac other_label :=
  rewrite getitem_setitem_other by (intro; discriminate).

Lemma clean_is_ok (df : Frame) : is_ok (clean df) = cleanable df.
Proof.
  unfold clean, cleanable.
  destruct (getitem (strip_columns df) "DESCRIPTION") as [d|e] eqn:Hd; simpl;
    [|reflexivity].
  unfold str_strip.
  destruct (is_numeric_dtype (fillna (Str "") d)); simpl; [reflexivity|].
  other_label.
  destruct (getitem (strip_columns df) "LENGTH") as [l|e] eqn:Hl; simpl;
    [|reflexivity].
  do 2 other_label.
  destruct (getitem (strip_columns df) "PART NUMBER") as [p|e] eqn:Hp; simpl;
    [|reflexivity].
  rewrite astype_str_not_numeric. simpl.
  do 3 other_label.
  now destruct (getitem (strip_columns df) "QTY.").
Qed.

(** The cleaned frame, column by column. *)
Lemma clean_columns (df df' : Frame) :
  clean df = Ok df' ->
  exists p d l q,
    getitem (strip_columns df) "PART NUMBER" = Ok p /\
    getitem (strip_columns df) "DESCRIPTION" = Ok d /\
    getitem (strip_columns df) "LENGTH" = Ok l /\
    getitem (strip_columns df) "QTY." = Ok q /\
    is_numeric_dtype (fillna (Str "") d) = false /\
    getitem df' "PART NUMBER" = Ok (map clean_part_number p) /\
    getitem df' "DESCRIPTION" = Ok (map clean_description d) /\
    getitem df' "LENGTH" = Ok (map clean_length l) /\
    getitem df' "QTY." = Ok (map clean_qty q).
Proof.
  unfold clean.
  destruct (getitem (strip_columns df) "DESCRIPTION") as [d|e] eqn:Hd; simpl;
    [|discriminate].
  unfold str_strip at 1.
  destruct (is_numeric_dtype (fillna (Str "") d)) eqn:Hn; simpl; [discriminate|].
  other_label.
  destruct (getitem (strip_columns df) "LENGTH") as [l|e] eqn:Hl; simpl;
    [|discriminate].
  do 2 other_label.
  destruct (getitem (strip_columns df) "PART NUMBER") as [p|e] eqn:Hp; simpl;
    [|discriminate].
  rewrite str_strip_astype. simpl.
  do 3 other_label.
  destruct (getitem (strip_columns df) "QTY.") as [q|e] eqn:Hq; simpl;
    [|discriminate].
  intros H. inversion H; subst df'; clear H.
  exists p, d, l, q. repeat split; auto.
  - other_label. apply getitem_setitem_same.
  - do 3 other_label. rewrite getitem_setitem_same.
    unfold fillna. now rewrite map_map.
  - do 2 other_label. apply getitem_setitem_same.
  - rewrite getitem_setitem_same. unfold fillna, to_numeric. now rewrite map_map.
Qed.

Lemma clean_records (df df' : Frame) :
  clean df = Ok df' ->
  records df' =
  zip_rows (map clean_part_number (column (strip_columns df) "PART NUMBER"))
           (map clean_description (column (strip_columns df) "DESCRIPTION"))
           (map clean_length (column (strip_columns df) "LENGTH"))
           (map clean_qty (column (strip_columns df) "QTY.")).
Proof.
  intros H. apply clean_columns in H.
  destruct H as (p & d & l & q & Hp & Hd & Hl & Hq & _ & Hp' & Hd' & Hl' & Hq').
  unfold records, column. now rewrite Hp, Hd, Hl, Hq, Hp', Hd', Hl', Hq'.
Qed.

Lemma zip_rows_In (p d l q : Series) (r : Row) :
  In r (zip_rows p d l q) ->
  In (PART_NUMBER r) p /\ In (DESCRIPTION r) d /\ In (LENGTH r) l /\ In (QTY r) q.
Proof.
  revert d l q.
  induction p as [|a p IH]; intros [|b d] [|c l] [|e q]; simpl; try tauto.
  intros [<-|H]; simpl; [tauto|].
  apply IH in H. tauto.
Qed.

(** Every row of a cleaned frame is the cleaning of raw cells. *)
Lemma clean_rows (df df' : Frame) (r : Row) :
  clean df = Ok df' -> In r (records df') ->
  (exists c, PART_NUMBER r = clean_part_number c) /\
  (exists c, DESCRIPTION r = clean_description c) /\
  (exists c, LENGTH r = clean_length c) /\
  (exists c, QTY r = clean_qty c).
Proof.
  intros H Hr. rewrite (clean_records _ _ H) in Hr.
  apply zip_rows_In in Hr. rewrite !in_map_iff in Hr.
  destruct Hr as ((a & Ha & _) & (b & Hb & _) & (c & Hc & _) & (e & He & _)).
  repeat split; eauto.
Qed.

(** ** The loop over the uploaded files *)

Lemma quiet_app (xs ys : list Event) : quiet xs -> quiet ys -> quiet (xs ++ ys).
Proof.
  unfold quiet. intros Hx Hy. now rewrite existsb_app, Hx, Hy.
Qed.

Lemma process_file_spec (f : Upload) (st : State) :
  fst (process_file f st) = Ok tt /\
  all_dataframes (snd (process_file f st)) = all_dataframes st ++ appended f /\
  error_files (snd (process_file f st)) = error_files st ++ reported f /\
  exists evs, screen (snd (process_file f st)) = screen st ++ evs /\ quiet evs.
Proof.
  unfold process_file, try_except, try_body, except_handler, bind, lift,
    appended, reported, recorded_as_error, normalize.
  destruct (first_read f) as [df|e]; simpl.
  - destruct (clean df) as [df'|e]; simpl.
    + destruct (preview f) as [raw|e]; simpl.
      * rewrite app_nil_r, <- app_assoc. repeat split; eauto.
        now exists ([st_subheader ("File: " ++ name f)] ++ [st_dataframe raw]).
      * rewrite <- app_assoc. repeat split; eauto.
        now exists ([st_subheader ("File: " ++ name f)] ++ [st_error (name f) e]).
    + rewrite app_nil_r. repeat split; eauto. now exists [st_error (name f) e].
  - rewrite app_nil_r. repeat split; eauto. now exists [st_error (name f) e].
Qed.

Lemma for_each_spec (fs : list Upload) (st : State) :
  fst (for_each fs process_file st) = Ok tt /\
  all_dataframes (snd (for_each fs process_file st)) =
    all_dataframes st ++ flat_map appended fs /\
  error_files (snd (for_each fs process_file st)) =
    error_files st ++ flat_map reported fs /\
  exists evs, screen (snd (for_each fs process_file st)) = screen st ++ evs /\ quiet evs.
Proof.
  revert st. induction fs as [|f fs IH]; intros st; simpl.
  - rewrite !app_nil_r. repeat split; auto. exists []. now rewrite app_nil_r.
  - unfold bind.
    destruct (process_file_spec f st) as (Hr & Hd & He & evs & Hs & Hq).
    destruct (process_file f st) as [r st1]. simpl in *. subst r.
    destruct (IH st1) as (Hr' & Hd' & He' & evs' & Hs' & Hq').
    rewrite Hd', He', Hs', Hd, He, Hs, <- !app_assoc.
    repeat split; auto. exists (evs ++ evs'). split; auto using quiet_app.
Qed.

Lemma merge_and_offer_frames (st : State) :
  all_dataframes (snd (merge_and_offer st)) = all_dataframes st /\
  error_files (snd (merge_and_offer st)) = error_files st.
Proof.
  unfold merge_and_offer, bind, get_dataframes.
  destruct (all_dataframes st) eqn:E; simpl; auto.
Qed.

Lemma run_cons (f : Upload) (fs : list Upload) :
  run (f :: fs) = snd (merge_and_offer (after_loop (f :: fs))).
Proof.
  unfold run, after_loop, main, bind, emit. cbv beta iota.
  change (snd (Ok tt, ?a)) with a.
  match goal with |- context [for_each ?l process_file ?s] =>
    destruct (for_each_spec l s) as (Hr & _);
    destruct (for_each l process_file s) as [r st1] end.
  simpl in Hr. now subst r.
Qed.

Lemma after_loop_spec (fs : list Upload) :
  all_dataframes (after_loop fs) = flat_map appended fs /\
  error_files (after_loop fs) = flat_map reported fs /\
  exists evs, screen (after_loop fs) = evs /\ quiet evs.
Proof.
  unfold after_loop.
  match goal with |- context [for_each ?l process_file ?s] =>
    destruct (for_each_spec l s) as (_ & Hd & He & evs & Hs & Hq) end.
  rewrite Hd, He, Hs. repeat split; auto.
  eexists; split; [reflexivity|]. now apply (quiet_app [_]).
Qed.

(** After the run, [all_dataframes] holds the cleaned frame of every file
    whose first read and cleaning went through, in upload order. *)
Lemma run_all_dataframes (fs : list Upload) :
  all_dataframes (run fs) = flat_map appended fs.
Proof.
  destruct fs as [|f fs]; [reflexivity|].
  rewrite run_cons, (proj1 (merge_and_offer_frames _)).
  apply after_loop_spec.
Qed.

Lemma run_error_files (fs : list Upload) :
  error_files (run fs) = flat_map reported fs.
Proof.
  destruct fs as [|f fs]; [reflexivity|].
  rewrite run_cons, (proj2 (merge_and_offer_frames _)).
  apply after_loop_spec.
Qed.

Lemma combined_df_eq (fs : list Upload) :
  combined_df fs = flat_map (fun f => concat_frames (appended f)) fs.
Proof.
  unfold combined_df. rewrite run_all_dataframes.
  unfold concat_frames. induction fs as [|f fs IH]; simpl; [reflexivity|].
  now rewrite flat_map_app, IH.
Qed.

(** What the screen shows at the end of a run. *)
Lemma run_screen (fs : list Upload) :
  fs <> [] ->
  exists evs, quiet evs /\
    screen (run fs) =
    evs ++
    match all_dataframes (run fs) with
    | [] => [st_warning "No valid data could be processed from the uploaded files."]
    | _ => [st_subheader "Merged Bill of Materials";
            st_merged (merged_df fs);
            st_download_button (to_excel (merged_df fs)) "merged_bom.xlsx" xlsx_mime]
    end.
Proof.
  intros Hne. destruct fs as [|f fs]; [congruence|]. clear Hne.
  unfold merged_df, combined_df. rewrite run_cons.
  rewrite (proj1 (merge_and_offer_frames _)).
  destruct (after_loop_spec (f :: fs)) as (_ & _ & evs & Hs & Hq).
  exists evs. split; [exact Hq|].
  unfold merge_and_offer, bind, get_dataframes.
  destruct (all_dataframes (after_loop (f :: fs))) as [|d ds] eqn:E; simpl.
  - now rewrite Hs.
  - rewrite Hs, <- !app_assoc. reflexivity.
Qed.

(** ** The combined table of a run *)

Lemma merged_df_tables (fs : list Upload) :
  merged_df fs = merge_tables (map records (all_dataframes (run fs))).
Proof.
  unfold merged_df, merge_tables, combined_df, concat_frames.
  now rewrite flat_map_concat_map.
Qed.

(** Every row of the combined table comes from a file whose first read and
    cleaning went through. *)
Lemma combined_df_In (fs : list Upload) (r : Row) :
  In r (combined_df fs) <->
  exists f df df',
    In f fs /\ first_read f = Ok df /\ clean df = Ok df' /\ In r (records df').
Proof.
  rewrite combined_df_eq, in_flat_map. unfold appended, normalize, concat_frames.
  split.
  - intros (f & Hf & Hr).
    destruct (first_read f) as [df|e] eqn:H1; simpl in Hr; [|tauto].
    destruct (clean df) as [df'|e] eqn:H2; simpl in Hr; [|tauto].
    rewrite app_nil_r in Hr. exists f, df, df'. auto.
  - intros (f & df & df' & Hf & H1 & H2 & Hr). exists f. split; [exact Hf|].
    rewrite H1. simpl. rewrite H2. simpl. now rewrite app_nil_r.
Qed.

Lemma combined_part_number (fs : list Upload) (r : Row) :
  In r (combined_df fs) -> exists s, PART_NUMBER r = Str s.
Proof.
  rewrite combined_df_In. intros (f & df & df' & _ & _ & Hc & Hr).
  destruct (clean_rows _ _ _ Hc Hr) as ((c & ->) & _).
  destruct c; eexists; reflexivity.
Qed.

Lemma combined_length (fs : list Upload) (r : Row) :
  In r (combined_df fs) -> LENGTH r <> NaN.
Proof.
  rewrite combined_df_In. intros (f & df & df' & _ & _ & Hc & Hr).
  destruct (clean_rows _ _ _ Hc Hr) as (_ & _ & (c & ->) & _).
  now destruct c.
Qed.

Lemma combined_qty (fs : list Upload) (r : Row) :
  In r (combined_df fs) -> exists z, QTY r = Num z.
Proof.
  rewrite combined_df_In. intros (f & df & df' & _ & _ & Hc & Hr).
  destruct (clean_rows _ _ _ Hc Hr) as (_ & _ & _ & (c & ->)).
  unfold clean_qty. destruct c as [|s|z]; simpl; try (eexists; reflexivity).
  destruct (to_number s); eexists; reflexivity.
Qed.

Lemma find_filter {A : Type} (p : A -> bool) (l : list A) :
  find p l = hd_error (filter p l).
Proof.
  induction l as [|x l IH]; simpl; [reflexivity|].
  now destruct (p x).
Qed.

Lemma agg_first_text (g : list Row) (r : Row) :
  (forall x, In x (r :: g) -> exists s, PART_NUMBER x = Str s) ->
  agg_first (map PART_NUMBER (r :: g)) = PART_NUMBER r.
Proof.
  intros H. destruct (H r (or_introl eq_refl)) as [s Hs].
  unfold agg_first. simpl. now rewrite Hs.
Qed.


Lemma merged_first_row (fs : list Upload) (o : Row) :
  In o (merged_df fs) ->
  exists r,
    find (fun r => key_eqb (key_of r) (key_of o)) (combined_df fs) = Some r /\
    PART_NUMBER o = PART_NUMBER r.
Proof.
  intros Ho. unfold merged_df in Ho. apply merge_rows_In in Ho.
  destruct Ho as (k & Hk & _ & ->).
  rewrite key_of_aggregate, find_filter. fold (members k (combined_df fs)).
  apply group_keys_In in Hk. destruct Hk as (r0 & Hin & _ & Ek).
  assert (Hm : In r0 (members k (combined_df fs))).
  { unfold members. rewrite filter_In. split; [exact Hin|]. now apply key_eqb_eq. }
  unfold aggregate. simpl.
  destruct (members k (combined_df fs)) as [|r g] eqn:Eg; [contradiction|].
  exists r. split; [reflexivity|].
  apply agg_first_text. intros x Hx. apply (combined_part_number fs).
  rewrite <- Eg in Hx. unfold members in Hx. now apply filter_In in Hx.
Qed.


(** ** The claims *)

(** C2: the part number of a merged row is the part number of the first row
    of the combined table with the same (description, length) key, where
    the combined table lists the cleaned files in upload order and each
    file's rows in sheet order. *)
Theorem part_number_first_wins (fs : list Upload) (o : Row) :
  In o (merged_df fs) ->
  combined_df fs = flat_map (fun f => concat_frames (appended f)) fs /\
  exists r,
    find (fun r => key_eqb (key_of r) (key_of o)) (combined_df fs) = Some r /\
    PART_NUMBER o = PART_NUMBER r.
Proof.
  intros Ho. split; [apply combined_df_eq|now apply merged_first_row].
Qed.

(** C3: whatever tables are merged, the merged table is in strictly
    ascending order of (description, length), so no two of its rows share a
    key; this holds in particular for the table a run shows. *)
Theorem merged_sorted_distinct (ts : list (list Row)) :
  StronglySorted key_lt (map key_of (merge_tables ts)) /\
  NoDup (map key_of (merge_tables ts)) /\
  (forall fs, StronglySorted key_lt (map key_of (merged_df fs))).
Proof.
  split; [|split].
  - apply merge_rows_sorted.
  - apply sorted_lt_NoDup, merge_rows_sorted.
  - intros fs. apply merge_rows_sorted.
Qed.


(** C5: merging the merged table again gives the same table, and in the
    merged table every row is the only member of its group. *)
Theorem merge_idempotent (ts : list (list Row)) :
  merge_tables [merge_tables ts] = merge_tables ts /\
  forall o, In o (merge_tables ts) ->
            members (key_of o) (merge_tables ts) = [o].
Proof.
  split.
  - unfold merge_tables at 1. simpl. rewrite app_nil_r.
    unfold merge_tables. apply merge_rows_fixed.
    + apply merge_rows_sorted.
    + apply merge_rows_has_key.
    + apply merge_rows_not_blank.
    + apply merge_rows_qty_num.
  - intros o Ho. apply members_single; [|exact Ho].
    apply sorted_lt_NoDup, merge_rows_sorted.
Qed.

Lemma getitem_with_qty_other (q : Series) (df : Frame) (l : string) :
  l <> "QTY."%string ->
  getitem (strip_columns (with_qty q df)) l = getitem (strip_columns df) l.
Proof.
  intros Hl. induction df as [|[n s] df IH]; simpl; [reflexivity|].
  destruct (String.eqb (strip n) "QTY.") eqn:E; simpl.
  - apply String.eqb_eq in E. rewrite E.
    assert (String.eqb "QTY." l = false) as -> by (apply String.eqb_neq; congruence).
    exact IH.
  - now rewrite IH.
Qed.

Lemma getitem_with_qty_ok (q : Series) (df : Frame) :
  is_ok (getitem (strip_columns (with_qty q df)) "QTY.") =
  is_ok (getitem (strip_columns df) "QTY.").
Proof.
  induction df as [|[n s] df IH]; simpl; [reflexivity|].
  destruct (String.eqb (strip n) "QTY.") eqn:E; simpl; rewrite E; auto.
Qed.

(** C6: a quantity that is missing, or a text that does not read as a
    number, is cleaned to 0 and adds nothing to a sum; the cleaned quantity
    column is the raw one cleaned cell by cell; and whether a file is
    cleaned or fails does not depend on what its quantity cells hold. *)
Theorem qty_coerced_to_zero :
  clean_qty NaN = Num 0 /\
  (forall s, to_number s = None -> clean_qty (Str s) = Num 0) /\
  (forall c t,
     c = NaN \/ (exists s, c = Str s /\ to_number s = None) ->
     total (clean_qty c :: t) = total t) /\
  (forall df df',
     clean df = Ok df' ->
     column df' "QTY." = map clean_qty (column (strip_columns df) "QTY.")) /\
  (forall q df, is_ok (clean (with_qty q df)) = is_ok (clean df)).
Proof.
  assert (H0 : forall s, to_number s = None -> clean_qty (Str s) = Num 0).
  { intros s Hs. unfold clean_qty. simpl. now rewrite Hs. }
  repeat split; auto.
  - intros c t [->|(s & -> & Hs)]; [reflexivity|]. now rewrite (H0 s Hs).
  - intros df df' H. apply clean_columns in H.
    destruct H as (p & d & l & q & _ & _ & _ & Hq & _ & _ & _ & _ & Hq').
    unfold column. now rewrite Hq, Hq'.
  - intros q df. rewrite !clean_is_ok. unfold cleanable.
    rewrite getitem_with_qty_ok.
    now rewrite !getitem_with_qty_other by discriminate.
Qed.

(** C8: when no file is normalized (every read or cleaning failed, or no
    file was uploaded), [all_dataframes] stays empty, the screen shows no
    merged table and offers no download, and it ends with the warning, or
    with the invitation to upload when there was no file. *)
Theorem no_table_no_output (fs : list Upload) :
  (forall f, In f fs -> is_ok (normalize f) = false) ->
  all_dataframes (run fs) = [] /\
  existsb is_merged (screen (run fs)) = false /\
  (fs = [] ->
   screen (run fs) = [st_info "Please upload one or more Excel files to begin."]) /\
  (fs <> [] ->
   exists evs,
     screen (run fs) =
     evs ++ [st_warning "No valid data could be processed from the uploaded files."]).
Proof.
  intros Hfail.
  assert (Hnone : all_dataframes (run fs) = []).
  { rewrite run_all_dataframes. clear -Hfail.
    induction fs as [|f fs IH]; simpl; [reflexivity|].
    rewrite IH by (intros g Hg; apply Hfail; now right).
    rewrite app_nil_r. unfold appended.
    specialize (Hfail f (or_introl eq_refl)).
    now destruct (normalize f). }
  split; [exact Hnone|].
  destruct fs as [|f fs].
  - repeat split; auto. congruence.
  - destruct (run_screen (f :: fs)) as (evs & Hq & Hs); [congruence|].
    rewrite Hnone in Hs. rewrite Hs. repeat split.
    + rewrite existsb_app. unfold quiet in Hq. now rewrite Hq.
    + congruence.
    + intros _. now exists evs.
Qed.


(** ** What holds of the claims that the script breaks *)


(** A description that is a text or missing stays present, and a length is
    always present after cleaning. *)
Lemma text_description_kept (c : Cell) :
  (c = NaN \/ exists s, c = Str s) ->
  clean_description c <> NaN /\ forall l, clean_length l <> NaN.
Proof.
  intros H. split.
  - destruct H as [->|(s & ->)]; discriminate.
  - intros l. now destruct l.
Qed.

(** ** Further properties: stripping *)





Lemma rstrip_cons (c : ascii) (s : string) :
  isspace c = false -> rstrip (String c s) = String c (rstrip s).
Proof.
  intros Hc. simpl. rewrite Hc. now destruct (rstrip s).
Qed.


Lemma rstrip_idem (s : string) : rstrip (rstrip s) = rstrip s.
Proof.
  induction s as [|a s IH]; simpl; [reflexivity|].
  destruct (rstrip s) as [|b r] eqn:E.
  - destruct (isspace a) eqn:Ha; simpl; [reflexivity|]. now rewrite Ha.
  - change (rstrip (String a (String b r)))
      with (match rstrip (String b r) with
            | EmptyString => if isspace a then EmptyString else String a EmptyString
            | String x t => String a (String x t)
            end).
    now rewrite IH.
Qed.

Lemma lstrip_rstrip_lstrip (s : string) :
  lstrip (rstrip (lstrip s)) = rstrip (lstrip s).
Proof.
  induction s as [|a s IH]; simpl; [reflexivity|].
  destruct (isspace a) eqn:Ha; [exact IH|].
  rewrite (rstrip_cons a s Ha). simpl. now rewrite Ha.
Qed.

Lemma strip_idem (s : string) : strip (strip s) = strip s.
Proof.
  unfold strip. now rewrite lstrip_rstrip_lstrip, rstrip_idem.
Qed.


(** ** Further properties: the merge *)

Lemma sorted_lt_unique (l1 l2 : list Key) :
  StronglySorted key_lt l1 -> StronglySorted key_lt l2 ->
  (forall k, In k l1 <-> In k l2) -> l1 = l2.
Proof.
  intros H1. revert l2.
  induction H1 as [|x l1 Hs1 IH Hall1]; intros l2 H2 Hin.
  - destruct l2 as [|y l2]; [reflexivity|].
    exfalso. apply (proj2 (Hin y)). now left.
  - destruct H2 as [|y l2 Hs2 Hall2].
    + exfalso. apply (proj1 (Hin x)). now left.
    + rewrite Forall_forall in Hall1, Hall2.
      assert (Exy : x = y).
      { destruct (proj1 (Hin x) (or_introl eq_refl)) as [E|Hx]; [now symmetry|].
        destruct (proj2 (Hin y) (or_introl eq_refl)) as [E|Hy]; [exact E|].
        exfalso. apply (key_lt_irrefl x).
        apply (key_lt_trans x y x); auto. }
      subst y. f_equal. apply IH; [exact Hs2|].
      intros k. split; intros Hk.
      * destruct (proj1 (Hin k) (or_intror Hk)) as [E|Hk']; [|exact Hk'].
        subst k. exfalso. exact (key_lt_irrefl x (Hall1 x Hk)).
      * destruct (proj2 (Hin k) (or_intror Hk)) as [E|Hk']; [|exact Hk'].
        subst k. exfalso. exact (key_lt_irrefl x (Hall2 x Hk)).
Qed.

(** The merged table, key by key. *)
Lemma merge_rows_map (t : list Row) :
  merge_rows t = map (aggregate t) (filter key_not_blank (group_keys t)).
Proof.
  rewrite merge_rows_eq. unfold drop_blank, groupby_agg.
  apply filter_map_comm. intros k. unfold not_blank.
  now rewrite <- (key_of_aggregate t k) at 2.
Qed.

Lemma merged_keys_In (t : list Row) (k : Key) :
  In k (filter key_not_blank (group_keys t)) <->
  exists r, In r t /\ counted r = true /\ key_of r = k.
Proof.
  rewrite filter_In, group_keys_In. unfold counted, not_blank, key_not_blank.
  split.
  - intros ((r & Hr & Hk & <-) & Hb). exists r.
    rewrite Hk. simpl in *. now rewrite Hb.
  - intros (r & Hr & Hc & <-). apply andb_true_iff in Hc. destruct Hc as [Hk Hb].
    split; [now exists r|exact Hb].
Qed.

(** Two tables with the same counted keys and, key by key, the same
    aggregate, merge to the same table. *)
Lemma merge_rows_ext (t u : list Row) :
  (forall k, In k (filter key_not_blank (group_keys t)) <->
             In k (filter key_not_blank (group_keys u))) ->
  (forall k, In k (filter key_not_blank (group_keys t)) ->
             aggregate t k = aggregate u k) ->
  merge_rows t = merge_rows u.
Proof.
  intros Hk Ha. rewrite !merge_rows_map.
  rewrite <- (sorted_lt_unique _ _ (sorted_filter _ _ _ (group_keys_sorted t))
                (sorted_filter _ _ _ (group_keys_sorted u)) Hk).
  now apply map_ext_in.
Qed.

Lemma filter_filter_impl {A : Type} (p q : A -> bool) (l : list A) :
  (forall x, In x l -> q x = true -> p x = true) ->
  filter q (filter p l) = filter q l.
Proof.
  induction l as [|x l IH]; simpl; intros H; [reflexivity|].
  destruct (q x) eqn:Hq.
  - rewrite (H x (or_introl eq_refl) Hq). simpl. rewrite Hq. f_equal.
    apply IH. intros y Hy. apply H. now right.
  - destruct (p x); simpl; rewrite ?Hq; apply IH; intros y Hy; apply H; now right.
Qed.

Lemma counted_key (r r' : Row) :
  key_of r = key_of r' -> counted r = counted r'.
Proof.
  unfold counted, has_key, not_blank, key_of. intros E. now inversion E.
Qed.

Lemma merge_rows_counted (t : list Row) :
  merge_rows (filter counted t) = merge_rows t.
Proof.
  apply merge_rows_ext.
  - intros k. rewrite !merged_keys_In. split.
    + intros (r & Hr & Hc & Ek). apply filter_In in Hr. exists r. tauto.
    + intros (r & Hr & Hc & Ek). exists r. rewrite filter_In. tauto.
  - intros k Hk. apply merged_keys_In in Hk. destruct Hk as (r & _ & Hc & Ek).
    unfold aggregate, members. rewrite filter_filter_impl; [reflexivity|].
    intros x _ Hx. apply key_eqb_eq in Hx.
    rewrite <- Hc. apply counted_key. congruence.
Qed.

(** X2: the merged table depends only on the rows that have both key
    fields present and a description other than the empty text: leaving the
    other rows out of the combined table beforehand changes nothing. *)
Theorem merge_ignores_uncounted_rows (t : list Row) :
  merge_rows (filter counted t) = merge_rows t.
Proof. apply merge_rows_counted. Qed.

Lemma sum_qty_app (t u : list Row) : sum_qty (t ++ u) = (sum_qty t + sum_qty u)%Z.
Proof.
  induction t as [|r t IH]; simpl; [reflexivity|].
  rewrite !sum_qty_cons, IH. lia.
Qed.

Lemma group_keys_perm (t u : list Row) :
  Permutation t u -> group_keys t = group_keys u.
Proof.
  intros Hp. apply sorted_lt_unique; try apply group_keys_sorted.
  intros k. rewrite !group_keys_In. split; intros (r & Hr & H); exists r;
    (split; [|exact H]).
  - now apply (Permutation_in _ Hp).
  - now apply (Permutation_in _ (Permutation_sym Hp)).
Qed.

(** X3: the order in which the files are uploaded has no effect on which
    (description, length) keys the merged table lists, nor on their order;
    the same holds for any reordering of the combined rows. *)
Theorem upload_order_keys_free (fs fs' : list Upload) :
  Permutation fs fs' ->
  map key_of (merged_df fs) = map key_of (merged_df fs') /\
  forall t u, Permutation t u ->
              map key_of (merge_rows t) = map key_of (merge_rows u).
Proof.
  assert (H : forall t u, Permutation t u ->
                          map key_of (merge_rows t) = map key_of (merge_rows u)).
  { intros t u Hp. now rewrite !merge_rows_keys, (group_keys_perm t u Hp). }
  intros Hp. split; [|exact H].
  unfold merged_df. apply H.
  rewrite !combined_df_eq. now apply Permutation_flat_map.
Qed.

Lemma members_app (k : Key) (t u : list Row) :
  members k (t ++ u) = members k t ++ members k u.
Proof. unfold members. apply filter_app. Qed.

Lemma members_key (k : Key) (t : list Row) (r : Row) :
  In r (members k t) <-> In r t /\ key_of r = k.
Proof.
  unfold members. rewrite filter_In, key_eqb_eq. tauto.
Qed.

Lemma merge_rows_NoDup (t : list Row) : NoDup (map key_of (merge_rows t)).
Proof. apply sorted_lt_NoDup, merge_rows_sorted. Qed.

Lemma members_of_merged (t : list Row) (k : Key) :
  In k (filter key_not_blank (group_keys t)) ->
  members k (merge_rows t) = [aggregate t k].
Proof.
  intros Hk. rewrite <- (key_of_aggregate t k) at 1.
  apply members_single; [apply merge_rows_NoDup|].
  rewrite merge_rows_map. now apply in_map.
Qed.

Lemma members_of_merged_none (t : list Row) (k : Key) :
  ~ In k (filter key_not_blank (group_keys t)) ->
  members k (merge_rows t) = [].
Proof.
  intros Hk. apply filter_none. intros o Ho.
  apply key_eqb_neq. intros E. apply Hk.
  rewrite <- merge_rows_keys, <- E. now apply in_map.
Qed.

Lemma agg_first_notna (s : Series) : agg_first s = NaN \/ notna (agg_first s) = true.
Proof.
  unfold agg_first. destruct (filter notna s) as [|c l] eqn:E; [now left|].
  right. assert (H : In c (filter notna s)) by (rewrite E; now left).
  now apply filter_In in H.
Qed.

Lemma agg_first_app (s1 s2 : Series) :
  agg_first (s1 ++ s2) = agg_first (agg_first s1 :: s2).
Proof.
  unfold agg_first at 1 2. rewrite filter_app. simpl.
  unfold agg_first. destruct (filter notna s1) as [|c l] eqn:E; simpl.
  - reflexivity.
  - assert (H : In c (filter notna s1)) by (rewrite E; now left).
    apply filter_In in H. destruct H as [_ H]. now rewrite H.
Qed.

Lemma key_in_dec (k : Key) (ks : list Key) : In k ks \/ ~ In k ks.
Proof.
  destruct (existsb (key_eqb k) ks) eqn:E.
  - left. apply existsb_exists in E. destruct E as (x & Hx & E).
    apply key_eqb_eq in E. now subst.
  - right. intros H.
    assert (E' : existsb (key_eqb k) ks = true).
    { apply existsb_exists. exists k. split; [exact H|apply key_eqb_refl]. }
    congruence.
Qed.

Lemma two_step_keys (t1 t2 : list Row) (k : Key) :
  In k (filter key_not_blank (group_keys (merge_rows t1 ++ t2))) <->
  In k (filter key_not_blank (group_keys (t1 ++ t2))).
Proof.
  rewrite !merged_keys_In. split.
  - intros (r & Hr & Hc & Ek). apply in_app_or in Hr. destruct Hr as [Hr|Hr].
    + assert (Hk : In (key_of r) (filter key_not_blank (group_keys t1))).
      { rewrite <- merge_rows_keys. now apply in_map. }
      apply merged_keys_In in Hk. destruct Hk as (r' & Hr' & Hc' & Ek').
      exists r'. rewrite in_app_iff. split; [tauto|]. split; congruence.
    + exists r. rewrite in_app_iff. tauto.
  - intros (r & Hr & Hc & Ek). apply in_app_or in Hr. destruct Hr as [Hr|Hr].
    + assert (Hk : has_key r = true /\ not_blank r = true)
        by (now apply andb_true_iff).
      destruct (merge_rows_complete t1 r Hr (proj1 Hk) (proj2 Hk))
        as (o & Ho & Eo).
      exists o. rewrite in_app_iff. split; [tauto|].
      split; [|congruence]. rewrite <- Hc. now apply counted_key.
    + exists r. rewrite in_app_iff. tauto.
Qed.

(** X4: merging in two steps lists the same keys with the same part
    numbers as merging at once: a table that was merged before can take the
    place of the rows it was merged from, in front of further rows, and
    every key keeps the part number of its first row. *)
Theorem merge_in_two_steps_keys_parts (t1 t2 : list Row) :
  map key_part (merge_rows (merge_rows t1 ++ t2)) =
  map key_part (merge_rows (t1 ++ t2)).
Proof.
  rewrite (merge_rows_map (merge_rows t1 ++ t2)), (merge_rows_map (t1 ++ t2)).
  rewrite !map_map.
  rewrite (sorted_lt_unique _ _
             (sorted_filter _ _ _ (group_keys_sorted (merge_rows t1 ++ t2)))
             (sorted_filter _ _ _ (group_keys_sorted (t1 ++ t2)))
             (two_step_keys t1 t2)).
  apply map_ext_in. intros k Hk.
  unfold key_part. rewrite !key_of_aggregate. unfold aggregate. simpl. f_equal.
  rewrite !members_app, !map_app.
  destruct (key_in_dec k (filter key_not_blank (group_keys t1))) as [H1|H1].
  - rewrite (members_of_merged t1 k H1). simpl.
    now rewrite (agg_first_app (map PART_NUMBER (members k t1))).
  - rewrite (members_of_merged_none t1 k H1).
    assert (E : members k t1 = []).
    { apply filter_none. intros r Hr. apply key_eqb_neq. intros E.
      apply H1. apply merged_keys_In. exists r. repeat split; auto.
      apply merged_keys_In in Hk. destruct Hk as (r' & _ & Hc & Ek).
      rewrite <- Hc. apply counted_key. congruence. }
    now rewrite E.
Qed.

Lemma insert_by_length {A : Type} (leb : A -> A -> bool) (x : A) (l : list A) :
  List.length (insert_by leb x l) = S (List.length l).
Proof.
  induction l as [|y l IH]; simpl; [reflexivity|].
  destruct (leb x y); simpl; [reflexivity|]. now rewrite IH.
Qed.

Lemma sort_by_length {A : Type} (leb : A -> A -> bool) (l : list A) :
  List.length (sort_by leb l) = List.length l.
Proof.
  induction l as [|x l IH]; simpl; [reflexivity|].
  now rewrite insert_by_length, IH.
Qed.

Lemma unique_length (l : list Key) : List.length (unique l) <= List.length l.
Proof.
  induction l as [|k l IH]; simpl; [lia|].
  pose proof (filter_length_le (fun k' => negb (key_eqb k' k)) (unique l)). lia.
Qed.

Lemma merge_rows_length (t : list Row) :
  List.length (merge_rows t) <= List.length t.
Proof.
  rewrite merge_rows_map, length_map.
  pose proof (filter_length_le key_not_blank (group_keys t)) as H1.
  unfold group_keys in *. rewrite sort_by_length in *.
  pose proof (unique_length (map key_of (filter has_key t))) as H2.
  rewrite length_map in H2.
  pose proof (filter_length_le has_key t). lia.
Qed.

(** X5: the merged table has at most as many rows as the combined table
    has counted rows, and exactly as many when those rows already have
    pairwise distinct keys. *)
Theorem merged_row_count (t : list Row) :
  List.length (merge_rows t) <= List.length (filter counted t) /\
  (NoDup (map key_of (filter counted t)) ->
   List.length (merge_rows t) = List.length (filter counted t)).
Proof.
  rewrite <- (merge_rows_counted t). split; [apply merge_rows_length|].
  intros Hnd. rewrite merge_rows_map, length_map.
  set (u := filter counted t) in *.
  assert (Hp : Permutation (filter key_not_blank (group_keys u)) (map key_of u)).
  { apply NoDup_Permutation; [|exact Hnd|].
    - apply sorted_lt_NoDup, sorted_filter, group_keys_sorted.
    - intros k. rewrite merged_keys_In, in_map_iff. split.
      + intros (r & Hr & _ & E). now exists r.
      + intros (r & E & Hr). exists r. repeat split; auto.
        unfold u in Hr. now apply filter_In in Hr. }
  rewrite (Permutation_length Hp). apply length_map.
Qed.

(** ** Further properties: cleaning *)

Lemma getitem_has_label (df : Frame) (l : string) :
  is_ok (getitem (strip_columns df) l) = has_label df l.
Proof.
  induction df as [|[n s] df IH]; simpl; [reflexivity|].
  destruct (String.eqb (strip n) l); simpl; auto.
Qed.

Lemma getitem_raise (df : Frame) (l : string) (e : Exc) :
  getitem df l = Raise e -> e = KeyError l.
Proof.
  induction df as [|[n s] df IH]; simpl.
  - congruence.
  - destruct (String.eqb n l); [discriminate|exact IH].
Qed.

Lemma numeric_after_fill (d : Series) :
  is_numeric_dtype (fillna (Str "") d) = all_numbers d.
Proof.
  assert (H : forall s,
    forallb (fun c => match c with Str _ => false | _ => true end)
            (map (fill (Str "")) s) =
    forallb (fun c => match c with Num _ => true | _ => false end) s).
  { induction s as [|x s IH]; simpl; [reflexivity|].
    rewrite IH. now destruct x. }
  destruct d as [|c d]; [reflexivity|].
  unfold is_numeric_dtype, all_numbers, fillna.
  change (map (fill (Str "")) (c :: d))
    with (fill (Str "") c :: map (fill (Str "")) d).
  exact (H (c :: d)).
Qed.

(** The cleaning as one case analysis on the raw columns. *)
Lemma clean_cases (df : Frame) :
  clean df =
  match getitem (strip_columns df) "DESCRIPTION" with
  | Raise e => Raise e
  | Ok d =>
      if all_numbers d then Raise AttributeError else
      match getitem (strip_columns df) "LENGTH" with
      | Raise e => Raise e
      | Ok l =>
          match getitem (strip_columns df) "PART NUMBER" with
          | Raise e => Raise e
          | Ok p =>
              match getitem (strip_columns df) "QTY." with
              | Raise e => Raise e
              | Ok q =>
                  Ok (setitem (setitem (setitem (setitem (strip_columns df)
                        "DESCRIPTION" (map clean_description d))
                        "LENGTH" (map clean_length l))
                        "PART NUMBER" (map clean_part_number p))
                        "QTY." (map clean_qty q))
              end
          end
      end
  end.
Proof.
  unfold clean.
  destruct (getitem (strip_columns df) "DESCRIPTION") as [d|e]; simpl;
    [|reflexivity].
  unfold str_strip at 1. rewrite numeric_after_fill.
  destruct (all_numbers d); simpl; [reflexivity|].
  other_label.
  destruct (getitem (strip_columns df) "LENGTH") as [l|e]; simpl; [|reflexivity].
  do 2 other_label.
  destruct (getitem (strip_columns df) "PART NUMBER") as [p|e]; simpl;
    [|reflexivity].
  rewrite str_strip_astype. simpl. do 3 other_label.
  destruct (getitem (strip_columns df) "QTY.") as [q|e]; simpl; [|reflexivity].
  unfold fillna, to_numeric, clean_description, clean_length, clean_qty.
  now rewrite !map_map.
Qed.

(** How the cleaning ends, read on the model of a frame. *)
Lemma clean_outcome_cases (df : Frame) :
  let d := column (strip_columns df) "DESCRIPTION" in
  (has_label df "DESCRIPTION" = false ->
   clean df = Raise (KeyError "DESCRIPTION")) /\
  (has_label df "DESCRIPTION" = true -> all_numbers d = true ->
   clean df = Raise AttributeError) /\
  (has_label df "DESCRIPTION" = true -> all_numbers d = false ->
   has_label df "LENGTH" = false ->
   clean df = Raise (KeyError "LENGTH")) /\
  (has_label df "DESCRIPTION" = true -> all_numbers d = false ->
   has_label df "LENGTH" = true -> has_label df "PART NUMBER" = false ->
   clean df = Raise (KeyError "PART NUMBER")) /\
  (has_label df "DESCRIPTION" = true -> all_numbers d = false ->
   has_label df "LENGTH" = true -> has_label df "PART NUMBER" = true ->
   has_label df "QTY." = false ->
   clean df = Raise (KeyError "QTY.")) /\
  (has_label df "DESCRIPTION" = true -> all_numbers d = false ->
   has_label df "LENGTH" = true -> has_label df "PART NUMBER" = true ->
   has_label df "QTY." = true ->
   exists df', clean df = Ok df').
Proof.
  intros d. unfold d, column. rewrite <- !getitem_has_label, clean_cases.
  destruct (getitem (strip_columns df) "DESCRIPTION") as [dc|e] eqn:Hd; simpl.
  2:{ apply getitem_raise in Hd. subst e. repeat split; easy. }
  destruct (all_numbers dc); simpl.
  1:{ repeat split; easy. }
  destruct (getitem (strip_columns df) "LENGTH") as [l|e] eqn:Hl; simpl.
  2:{ apply getitem_raise in Hl. subst e. repeat split; easy. }
  destruct (getitem (strip_columns df) "PART NUMBER") as [p|e] eqn:Hp; simpl.
  2:{ apply getitem_raise in Hp. subst e. repeat split; easy. }
  destruct (getitem (strip_columns df) "QTY.") as [q|e] eqn:Hq; simpl.
  2:{ apply getitem_raise in Hq. subst e. repeat split; easy. }
  repeat split; try easy. intros. eexists; reflexivity.
Qed.

(** X6: how the cleaning of a frame ends, for a sheet that has at least
    one column and whose headers stay pairwise distinct once stripped.  A
    required label that no header gives once stripped raises [KeyError]
    with that label, the labels being looked up in the order DESCRIPTION,
    LENGTH, PART NUMBER, QTY.; a description column that has rows, all of
    them numbers, raises [AttributeError] before LENGTH is looked up;
    otherwise the frame is cleaned. *)
Theorem clean_outcome (df : Frame) :
  df <> [] ->
  NoDup (map (fun col => strip (fst col)) df) ->
  let d := column (strip_columns df) "DESCRIPTION" in
  (has_label df "DESCRIPTION" = false ->
   clean df = Raise (KeyError "DESCRIPTION")) /\
  (has_label df "DESCRIPTION" = true -> all_numbers d = true ->
   clean df = Raise AttributeError) /\
  (has_label df "DESCRIPTION" = true -> all_numbers d = false ->
   has_label df "LENGTH" = false ->
   clean df = Raise (KeyError "LENGTH")) /\
  (has_label df "DESCRIPTION" = true -> all_numbers d = false ->
   has_label df "LENGTH" = true -> has_label df "PART NUMBER" = false ->
   clean df = Raise (KeyError "PART NUMBER")) /\
  (has_label df "DESCRIPTION" = true -> all_numbers d = false ->
   has_label df "LENGTH" = true -> has_label df "PART NUMBER" = true ->
   has_label df "QTY." = false ->
   clean df = Raise (KeyError "QTY.")) /\
  (has_label df "DESCRIPTION" = true -> all_numbers d = false ->
   has_label df "LENGTH" = true -> has_label df "PART NUMBER" = true ->
   has_label df "QTY." = true ->
   exists df', clean df = Ok df').
Proof.
  intros _ _. apply clean_outcome_cases.
Qed.

Lemma setitem_labels (df : Frame) (a : string) (v : Series) :
  is_ok (getitem df a) = true -> map fst (setitem df a v) = map fst df.
Proof.
  induction df as [|[l s] df IH]; simpl; [discriminate|].
  destruct (String.eqb l a); simpl; [reflexivity|].
  intros H. now rewrite IH.
Qed.

Lemma setitem_current (df : Frame) (a : string) (v : Series) :
  getitem df a = Ok v -> setitem df a v = df.
Proof.
  induction df as [|[l s] df IH]; simpl; [discriminate|].
  destruct (String.eqb l a); simpl.
  - now intros [= ->].
  - intros H. now rewrite IH.
Qed.

(** The frame a successful cleaning returns. *)
Lemma clean_form (df df' : Frame) :
  clean df = Ok df' ->
  exists p d l q,
    getitem (strip_columns df) "PART NUMBER" = Ok p /\
    getitem (strip_columns df) "DESCRIPTION" = Ok d /\
    getitem (strip_columns df) "LENGTH" = Ok l /\
    getitem (strip_columns df) "QTY." = Ok q /\
    df' = setitem (setitem (setitem (setitem (strip_columns df)
            "DESCRIPTION" (map clean_description d))
            "LENGTH" (map clean_length l))
            "PART NUMBER" (map clean_part_number p))
            "QTY." (map clean_qty q).
Proof.
  unfold clean.
  destruct (getitem (strip_columns df) "DESCRIPTION") as [d|e] eqn:Hd; simpl;
    [|discriminate].
  unfold str_strip at 1.
  destruct (is_numeric_dtype (fillna (Str "") d)) eqn:Hn; simpl; [discriminate|].
  other_label.
  destruct (getitem (strip_columns df) "LENGTH") as [l|e] eqn:Hl; simpl;
    [|discriminate].
  do 2 other_label.
  destruct (getitem (strip_columns df) "PART NUMBER") as [p|e] eqn:Hp; simpl;
    [|discriminate].
  rewrite str_strip_astype. simpl.
  do 3 other_label.
  destruct (getitem (strip_columns df) "QTY.") as [q|e] eqn:Hq; simpl;
    [|discriminate].
  intros H. inversion H; subst df'; clear H.
  exists p, d, l, q. repeat split.
  unfold fillna, to_numeric, clean_description, clean_length, clean_qty.
  now rewrite !map_map.
Qed.

Lemma clean_labels (df df' : Frame) :
  clean df = Ok df' -> map fst df' = map (fun col => strip (fst col)) df.
Proof.
  intros H. apply clean_form in H.
  destruct H as (p & d & l & q & Hp & Hd & Hl & Hq & ->).
  rewrite !setitem_labels.
  - unfold strip_columns. now rewrite map_map.
  - now rewrite Hd.
  - other_label. now rewrite Hl.
  - do 2 other_label. now rewrite Hp.
  - do 3 other_label. now rewrite Hq.
Qed.

Lemma clean_other_columns (df df' : Frame) (a : string) :
  clean df = Ok df' -> ~ In a cleaned_labels ->
  getitem df' a = getitem (strip_columns df) a.
Proof.
  intros H Ha. apply clean_form in H.
  destruct H as (p & d & l & q & _ & _ & _ & _ & ->).
  unfold cleaned_labels in Ha. simpl in Ha.
  rewrite !getitem_setitem_other; auto; intros E; apply Ha; subst; tauto.
Qed.

(** X7: a successful cleaning keeps the shape of the frame: the labels are
    the stripped headers in the same order, every column other than the
    four cleaned ones is untouched, and every column keeps its number of
    rows. *)
Theorem clean_keeps_frame_shape (df df' : Frame) :
  clean df = Ok df' ->
  map fst df' = map (fun col => strip (fst col)) df /\
  (forall a, ~ In a cleaned_labels ->
             getitem df' a = getitem (strip_columns df) a) /\
  (forall a, List.length (column df' a) =
             List.length (column (strip_columns df) a)).
Proof.
  intros H. split; [now apply clean_labels|].
  split; [intros a; now apply clean_other_columns|].
  intros a.
  destruct (in_dec string_dec a cleaned_labels) as [Hin|Hout].
  - destruct (clean_columns _ _ H)
      as (p & d & l & q & Hp & Hd & Hl & Hq & _ & Hp' & Hd' & Hl' & Hq').
    unfold column. unfold cleaned_labels in Hin. simpl in Hin.
    destruct Hin as [<-|[<-|[<-|[<-|[]]]]].
    + now rewrite Hd, Hd', length_map.
    + now rewrite Hl, Hl', length_map.
    + now rewrite Hp, Hp', length_map.
    + now rewrite Hq, Hq', length_map.
  - unfold column. now rewrite (clean_other_columns _ _ a H Hout).
Qed.

Lemma strip_columns_fixed (df : Frame) :
  (forall l, In l (map fst df) -> strip l = l) -> strip_columns df = df.
Proof.
  unfold strip_columns. induction df as [|[n s] df IH]; simpl; intros H;
    [reflexivity|].
  rewrite (H n) by now left. f_equal. apply IH. intros l Hl. apply H. now right.
Qed.

Lemma clean_description_twice (c : Cell) :
  text_or_missing c = true ->
  clean_description (clean_description c) = clean_description c.
Proof.
  destruct c as [|s|z]; simpl; try discriminate; intros _.
  - reflexivity.
  - unfold clean_description. simpl. now rewrite strip_idem.
Qed.

Lemma clean_part_number_twice (c : Cell) :
  clean_part_number (clean_part_number c) = clean_part_number c.
Proof.
  destruct c; unfold clean_part_number; simpl; now rewrite strip_idem.
Qed.

Lemma clean_length_twice (c : Cell) : clean_length (clean_length c) = clean_length c.
Proof. now destruct c. Qed.

Lemma clean_qty_twice (c : Cell) : clean_qty (clean_qty c) = clean_qty c.
Proof.
  destruct c as [|s|z]; unfold clean_qty; simpl; try reflexivity.
  now destruct (to_number s).
Qed.

Lemma cleaned_description_not_numbers (d : Series) :
  forallb text_or_missing d = true ->
  all_numbers (map clean_description d) = false.
Proof.
  destruct d as [|c d]; [reflexivity|]. simpl.
  intros H. apply andb_true_iff in H. destruct H as [Hc _].
  now destruct c.
Qed.

Lemma map_twice {A : Type} (P : A -> bool) (f : A -> A) (l : list A) :
  (forall x, P x = true -> f (f x) = f x) ->
  forallb P l = true -> map f (map f l) = map f l.
Proof.
  intros Hf. induction l as [|x l IH]; simpl; [reflexivity|].
  intros H. apply andb_true_iff in H. destruct H as [Hx Hl].
  now rewrite Hf, IH.
Qed.

Lemma map_twice_all {A : Type} (f : A -> A) (l : list A) :
  (forall x, f (f x) = f x) -> map f (map f l) = map f l.
Proof.
  intros Hf. rewrite map_map. apply map_ext. exact Hf.
Qed.

(** X8: cleaning a cleaned frame gives the same frame back, provided no
    description cell of the raw sheet was a number. *)
Theorem clean_idempotent (df df' : Frame) :
  clean df = Ok df' ->
  forallb text_or_missing (column (strip_columns df) "DESCRIPTION") = true ->
  clean df' = Ok df'.
Proof.
  intros H Htext.
  assert (Hl := clean_labels _ _ H).
  destruct (clean_columns _ _ H)
    as (p & d & l & q & Hp & Hd & Hl0 & Hq & _ & Hp' & Hd' & Hl' & Hq').
  unfold column in Htext. rewrite Hd in Htext.
  assert (Hfix : strip_columns df' = df').
  { apply strip_columns_fixed. intros a Ha. rewrite Hl in Ha.
    apply in_map_iff in Ha. destruct Ha as (col & <- & _). apply strip_idem. }
  rewrite clean_cases, Hfix, Hd', Hl', Hp', Hq'.
  rewrite (cleaned_description_not_numbers d Htext).
  rewrite (map_twice text_or_missing clean_description d
             clean_description_twice Htext).
  rewrite (map_twice_all clean_length l clean_length_twice).
  rewrite (map_twice_all clean_part_number p clean_part_number_twice).
  rewrite (map_twice_all clean_qty q clean_qty_twice).
  rewrite (setitem_current df' _ _ Hd').
  rewrite (setitem_current df' _ _ Hl').
  rewrite (setitem_current df' _ _ Hp').
  now rewrite (setitem_current df' _ _ Hq').
Qed.

(** ** Further properties: the run *)

Lemma errors_shown_app (xs ys : list Event) :
  errors_shown (xs ++ ys) = errors_shown xs ++ errors_shown ys.
Proof. unfold errors_shown. apply flat_map_app. Qed.

Lemma process_file_errors (f : Upload) (st : State) :
  errors_shown (screen (snd (process_file f st))) =
  errors_shown (screen st) ++ reported f.
Proof.
  unfold process_file, try_except, try_body, except_handler, bind, lift,
    reported, recorded_as_error, normalize.
  destruct (first_read f) as [df|e]; simpl.
  - destruct (clean df) as [df'|e]; simpl.
    + destruct (preview f) as [raw|e]; simpl;
        rewrite !errors_shown_app; simpl; now rewrite ?app_nil_r.
    + now rewrite errors_shown_app.
  - now rewrite errors_shown_app.
Qed.

Lemma for_each_errors (fs : list Upload) (st : State) :
  errors_shown (screen (snd (for_each fs process_file st))) =
  errors_shown (screen st) ++ flat_map reported fs.
Proof.
  revert st. induction fs as [|f fs IH]; intros st; simpl.
  - now rewrite app_nil_r.
  - unfold bind.
    pose proof (process_file_errors f st) as He.
    destruct (process_file_spec f st) as (Hr & _).
    destruct (process_file f st) as [r st1]. simpl in *. subst r.
    now rewrite IH, He, app_assoc.
Qed.

Lemma merge_and_offer_screen (st : State) :
  exists evs,
    screen (snd (merge_and_offer st)) = screen st ++ evs /\
    errors_shown evs = [].
Proof.
  unfold merge_and_offer, bind, get_dataframes.
  destruct (all_dataframes st) as [|d ds]; simpl.
  - now eexists.
  - rewrite <- !app_assoc. now eexists.
Qed.

Lemma run_errors_shown (fs : list Upload) :
  errors_shown (screen (run fs)) = flat_map reported fs.
Proof.
  destruct fs as [|f fs]; [reflexivity|].
  rewrite run_cons.
  destruct (merge_and_offer_screen (after_loop (f :: fs))) as (evs & -> & He).
  rewrite errors_shown_app, He, app_nil_r.
  unfold after_loop. now rewrite for_each_errors.
Qed.

Lemma appended_count (fs : list Upload) :
  List.length (flat_map appended fs) =
  List.length (filter (fun f => is_ok (normalize f)) fs).
Proof.
  induction fs as [|f fs IH]; simpl; [reflexivity|].
  rewrite length_app, IH. unfold appended.
  now destruct (normalize f).
Qed.

(** X9: the books of a run.  [all_dataframes] holds, in upload order, the
    cleaned frame of each file whose first read and cleaning go through,
    one frame for each such file; [error_files] holds, in upload order, the
    name of each file for which the read, the cleaning or the preview
    raised; and the errors shown on the screen are those of [error_files],
    in the same order. *)
Theorem run_books (fs : list Upload) :
  all_dataframes (run fs) = flat_map appended fs /\
  List.length (all_dataframes (run fs)) =
    List.length (filter (fun f => is_ok (normalize f)) fs) /\
  error_files (run fs) = map name (filter recorded_as_error fs) /\
  errors_shown (screen (run fs)) = error_files (run fs).
Proof.
  assert (Hrep : flat_map reported fs = map name (filter recorded_as_error fs)).
  { induction fs as [|f fs IH]; simpl; [reflexivity|].
    unfold reported at 1. destruct (recorded_as_error f); simpl; now rewrite IH. }
  rewrite run_errors_shown, run_error_files, run_all_dataframes, appended_count.
  repeat split; auto.
Qed.

Lemma quiet_nothing_merged (evs : list Event) :
  quiet evs -> tables_shown evs = [] /\ downloads evs = [].
Proof.
  unfold quiet. induction evs as [|ev evs IH]; simpl; [auto|].
  intros H. apply orb_false_iff in H. destruct H as [Hev Hevs].
  destruct (IH Hevs) as [Ht Hd]. unfold tables_shown, downloads in *. simpl.
  rewrite Ht, Hd. now destruct ev.
Qed.

Lemma some_file_normalized (fs : list Upload) :
  existsb (fun f => is_ok (normalize f)) fs = true ->
  all_dataframes (run fs) <> [] /\ fs <> [].
Proof.
  intros H. apply existsb_exists in H. destruct H as (f & Hf & Hn).
  split; [|intros ->; contradiction].
  rewrite run_all_dataframes. intros E.
  assert (Hin : forall df, ~ In df (flat_map appended fs))
    by (intros df; now rewrite E).
  unfold appended in Hin. destruct (normalize f) as [df|e] eqn:En; [|discriminate].
  apply (Hin df). apply in_flat_map. exists f. rewrite En. split; [exact Hf|now left].
Qed.

(** X10: as soon as one file is read and cleaned, the run shows exactly one
    merged table and offers exactly one download, last on the screen: the
    workbook named merged_bom.xlsx with the sheet Merged_BOM, the four
    columns in their final order, and the very table that is shown. *)
Theorem merged_table_offered (fs : list Upload) :
  existsb (fun f => is_ok (normalize f)) fs = true ->
  tables_shown (screen (run fs)) = [merged_df fs] /\
  downloads (screen (run fs)) =
    [{| sheet_name := "Merged_BOM";
        header := ["PART NUMBER"; "DESCRIPTION"; "LENGTH"; "QTY."]%string;
        sheet_rows := merged_df fs |}] /\
  exists evs,
    screen (run fs) =
    evs ++ [st_download_button (to_excel (merged_df fs)) "merged_bom.xlsx" xlsx_mime].
Proof.
  intros H. destruct (some_file_normalized fs H) as [Hd Hne].
  destruct (run_screen fs Hne) as (evs & Hq & Hs).
  destruct (all_dataframes (run fs)) as [|d ds]; [congruence|].
  destruct (quiet_nothing_merged evs Hq) as [Ht Hdl].
  rewrite Hs. unfold tables_shown, downloads in *.
  rewrite !flat_map_app, Ht, Hdl. repeat split.
  exists (evs ++ [st_subheader "Merged Bill of Materials"; st_merged (merged_df fs)]).
  now rewrite <- app_assoc.
Qed.

(** X12: every row of the combined table whose description is present and
    is not the empty text has exactly one merged row with its key. *)
Theorem described_row_merged_once (fs : list Upload) (r : Row) :
  In r (combined_df fs) ->
  DESCRIPTION r <> NaN -> DESCRIPTION r <> Str "" ->
  exists o, members (key_of r) (merged_df fs) = [o] /\ key_of o = key_of r.
Proof.
  intros Hr Hna Hb.
  assert (Hc : counted r = true).
  { unfold counted, has_key, not_blank. pose proof (combined_length fs r Hr) as Hl.
    assert (Hn : notna (LENGTH r) = true)
      by (destruct (LENGTH r); [congruence|reflexivity|reflexivity]).
    rewrite Hn.
    destruct (DESCRIPTION r) as [|s|z]; [congruence| |reflexivity]. simpl.
    destruct (String.eqb s "") eqn:E; [|reflexivity].
    apply String.eqb_eq in E. congruence. }
  exists (aggregate (combined_df fs) (key_of r)).
  split; [|apply key_of_aggregate].
  apply members_of_merged. apply merged_keys_In. now exists r.
Qed.

Lemma for_each_error_event (fs : list Upload) (f : Upload) (e : Exc) (st : State) :
  In f fs -> normalize f = Raise e ->
  In (st_error (name f) e) (screen (snd (for_each fs process_file st))).
Proof.
  revert st. induction fs as [|g fs IH]; intros st Hin Hn; [contradiction|].
  simpl. unfold bind.
  destruct (process_file_spec g st) as (Hr & _).
  destruct (process_file g st) as [r st1] eqn:Eg. simpl in Hr. subst r.
  destruct Hin as [->|Hin]; [|now apply IH].
  destruct (for_each_spec fs st1) as (_ & _ & _ & evs & -> & _).
  apply in_or_app. left.
  assert (Est : st1 = snd (process_file f st)) by now rewrite Eg.
  rewrite Est. clear Eg Est.
  unfold process_file, try_except, try_body, except_handler, bind, lift.
  unfold normalize in Hn.
  destruct (first_read f) as [df|e0]; simpl in *.
  - rewrite Hn. simpl. apply in_or_app. right. now left.
  - inversion Hn. apply in_or_app. right. now left.
Qed.

(** X13: a file whose first read or cleaning raises is reported on the
    screen with the exception raised, is recorded in [error_files], adds
    no frame, and leaves the merged table what it is without that file. *)
Theorem failed_file_reported_and_skipped
        (fs1 fs2 : list Upload) (f : Upload) (e : Exc) :
  normalize f = Raise e ->
  In (st_error (name f) e) (screen (run (fs1 ++ f :: fs2))) /\
  In (name f) (error_files (run (fs1 ++ f :: fs2))) /\
  all_dataframes (run (fs1 ++ f :: fs2)) = all_dataframes (run (fs1 ++ fs2)) /\
  merged_df (fs1 ++ f :: fs2) = merged_df (fs1 ++ fs2).
Proof.
  intros Hn.
  assert (Ha : appended f = []) by (unfold appended; now rewrite Hn).
  assert (Hd : all_dataframes (run (fs1 ++ f :: fs2)) =
               all_dataframes (run (fs1 ++ fs2))).
  { rewrite !run_all_dataframes, !flat_map_app. simpl. now rewrite Ha. }
  repeat split.
  - destruct (fs1 ++ f :: fs2) as [|g gs] eqn:E;
      [now destruct fs1|].
    rewrite run_cons.
    destruct (merge_and_offer_screen (after_loop (g :: gs))) as (evs & -> & _).
    apply in_or_app. left. unfold after_loop.
    apply for_each_error_event; [|exact Hn].
    rewrite <- E. apply in_or_app. right. now left.
  - rewrite run_error_files, flat_map_app. apply in_or_app. right. simpl.
    unfold reported, recorded_as_error. rewrite Hn. simpl. now left.
  - exact Hd.
  - unfold merged_df, combined_df. now rewrite Hd.
Qed.

Lemma previews_app (xs ys : list Event) :
  previews (xs ++ ys) = previews xs ++ previews ys.
Proof. unfold previews. apply flat_map_app. Qed.

Lemma process_file_previews (f : Upload) (st : State) :
  previews (screen (snd (process_file f st))) =
  previews (screen st) ++
  match preview f with
  | Ok raw => if recorded_as_error f then [] else [raw]
  | Raise _ => []
  end.
Proof.
  unfold process_file, try_except, try_body, except_handler, bind, lift,
    recorded_as_error, normalize.
  destruct (first_read f) as [df|e]; simpl.
  - destruct (clean df) as [df'|e]; simpl.
    + destruct (preview f) as [raw|e]; simpl;
        rewrite !previews_app; simpl; now rewrite ?app_nil_r.
    + rewrite previews_app. simpl. rewrite app_nil_r.
      destruct (preview f); now rewrite app_nil_r.
  - rewrite previews_app. simpl. rewrite app_nil_r.
    destruct (preview f); now rewrite app_nil_r.
Qed.

Lemma for_each_previews (fs : list Upload) (st : State) :
  previews (screen (snd (for_each fs process_file st))) =
  previews (screen st) ++
  flat_map (fun f => match preview f with
                     | Ok raw => if recorded_as_error f then [] else [raw]
                     | Raise _ => []
                     end) fs.
Proof.
  revert st. induction fs as [|f fs IH]; intros st; simpl.
  - now rewrite app_nil_r.
  - unfold bind.
    pose proof (process_file_previews f st) as Hp.
    destruct (process_file_spec f st) as (Hr & _).
    destruct (process_file f st) as [r st1]. simpl in *. subst r.
    now rewrite IH, Hp, app_assoc.
Qed.

Lemma merge_and_offer_previews (st : State) :
  previews (screen (snd (merge_and_offer st))) = previews (screen st).
Proof.
  unfold merge_and_offer, bind, get_dataframes.
  destruct (all_dataframes st) as [|d ds]; simpl;
    rewrite ?previews_app; simpl; now rewrite ?app_nil_r.
Qed.

(** X16: the screen accounts for every uploaded file exactly once: a file
    is either previewed (the frame of its second read is shown) or reported
    as an error, never both, so previews and error reports together are as
    many as the files; and when files were uploaded the screen opens with
    their count. *)
Theorem every_file_previewed_or_reported (fs : list Upload) :
  previews (screen (run fs)) =
    flat_map (fun f => match preview f with
                       | Ok raw => if recorded_as_error f then [] else [raw]
                       | Raise _ => []
                       end) fs /\
  List.length (previews (screen (run fs))) +
  List.length (errors_shown (screen (run fs))) = List.length fs /\
  (fs <> [] ->
   exists rest, screen (run fs) = st_info_count (List.length fs) :: rest).
Proof.
  assert (Hp : previews (screen (run fs)) =
    flat_map (fun f => match preview f with
                       | Ok raw => if recorded_as_error f then [] else [raw]
                       | Raise _ => []
                       end) fs).
  { destruct fs as [|f fs]; [reflexivity|].
    rewrite run_cons, merge_and_offer_previews. unfold after_loop.
    now rewrite for_each_previews. }
  split; [exact Hp|]. split.
  - rewrite Hp, run_errors_shown. clear Hp.
    induction fs as [|f fs IH]; simpl; [reflexivity|].
    rewrite !length_app. unfold reported, recorded_as_error in *.
    destruct (is_ok (normalize f)); destruct (preview f); simpl; lia.
  - intros Hne. destruct fs as [|f fs]; [congruence|].
    rewrite run_cons.
    destruct (merge_and_offer_screen (after_loop (f :: fs))) as (evs & -> & _).
    unfold after_loop.
    match goal with |- context [for_each ?l process_file ?s] =>
      destruct (for_each_spec l s) as (_ & _ & _ & evs' & -> & _) end.
    simpl. eexists. reflexivity.
Qed.



End Pipeline.

(** * The model run on the sample workbooks

    Numbers are read and written as decimal integers here. *)

(** The scenario of the specification: the two bracket rows are summed and
    the screw row follows. *)
Example scenario_two_files :
  merged_df int_literal int_repr
    [uploaded "a.xlsx" bracket_frame; uploaded "b.xlsx" screw_frame] =
  [mkRow (Str "P1") (Str "Bracket") (Str "10") (Num 8);
   mkRow (Str "P2") (Str "Screw") (Str "") (Num 100)].
Proof. reflexivity. Qed.

(** The merged bracket row of the scenario takes the part number of the
    bracket row of the first file. *)
Lemma part_number_first_wins_witness :
  let fs := [uploaded "a.xlsx" bracket_frame; uploaded "b.xlsx" screw_frame] in
  let o := mkRow (Str "P1") (Str "Bracket") (Str "10") (Num 8) in
  In o (merged_df int_literal int_repr fs) /\
  (combined_df int_literal int_repr fs =
     flat_map (fun f => concat_frames (appended int_literal int_repr f)) fs /\
   exists r,
     find (fun r => key_eqb (key_of r) (key_of o))
          (combined_df int_literal int_repr fs) = Some r /\
     PART_NUMBER o = PART_NUMBER r).
Proof.
  intros fs o.
  assert (Ho : In o (merged_df int_literal int_repr fs)) by (left; reflexivity).
  split; [exact Ho|].
  exact (part_number_first_wins int_literal int_repr fs o Ho).
Defined.

(** A row whose description is white space only is left out, whatever its
    length and quantity. *)
Example scenario_blank_row :
  merged_df int_literal int_repr
    [uploaded "c.xlsx" (sheet [Str "P9"] [Str "   "] [Num 7] [Num 4])] = [].
Proof. reflexivity. Qed.


(** The quantity [n/a] does not read as a number and is cleaned to 0. *)
Lemma qty_coerced_to_zero_witness :
  int_literal "n/a" = None /\ clean_qty int_literal (Str "n/a") = Num 0.
Proof.
  split; [reflexivity|].
  apply (proj1 (proj2 (qty_coerced_to_zero int_literal int_repr))).
  reflexivity.
Defined.

(** A single file that cannot be read: nothing is merged or offered. *)
Lemma no_table_no_output_witness :
  let fs := [unreadable_upload] in
  (forall f, In f fs -> is_ok (normalize int_literal int_repr f) = false) /\
  all_dataframes (run int_literal int_repr fs) = [] /\
  existsb is_merged (screen (run int_literal int_repr fs)) = false /\
  (fs = [] ->
   screen (run int_literal int_repr fs) =
   [st_info "Please upload one or more Excel files to begin."]) /\
  (fs <> [] ->
   exists evs,
     screen (run int_literal int_repr fs) =
     evs ++ [st_warning "No valid data could be processed from the uploaded files."]).
Proof.
  intros fs.
  assert (H : forall f, In f fs -> is_ok (normalize int_literal int_repr f) = false).
  { intros f [<-|[]]. reflexivity. }
  split; [exact H|].
  exact (no_table_no_output int_literal int_repr fs H).
Defined.

(** C1: the sheet [mixed_frame] holds two rows with a description, of
    quantities 5 and 7.  The combined table keeps both, the second under a
    missing description; grouping leaves that row out, so the merged table
    has no row for its key and carries 5 of the 12 units: the total over the
    rows with a description is not conserved. *)
Theorem numeric_description_loses_quantity :
  let fs := [uploaded "m.xlsx" mixed_frame] in
  combined_df int_literal int_repr fs =
    [mkRow (Str "P1") (Str "Bracket") (Str "10") (Num 5);
     mkRow (Str "P2") NaN (Str "10") (Num 7)] /\
  merged_df int_literal int_repr fs =
    [mkRow (Str "P1") (Str "Bracket") (Str "10") (Num 5)] /\
  sum_qty (merged_df int_literal int_repr fs) = 5%Z /\
  sum_qty (filter (fun r => negb (blank (DESCRIPTION r))) (records mixed_frame)) = 12%Z.
Proof. repeat split; reflexivity. Qed.

(** C9: cleaning [mixed_frame] goes through and leaves the description of
    its second row missing: the number 42 is not a text, so stripping the
    column turns it into a missing value after the missing values were
    filled.  The row enters the combined table with that missing
    description. *)
Theorem numeric_description_becomes_missing :
  clean int_literal int_repr mixed_frame =
    Ok (sheet [Str "P1"; Str "P2"] [Str "Bracket"; NaN] [Str "10"; Str "10"]
              [Num 5; Num 7]) /\
  In (mkRow (Str "P2") NaN (Str "10") (Num 7))
     (combined_df int_literal int_repr [uploaded "m.xlsx" mixed_frame]).
Proof.
  split; [reflexivity|]. right. left. reflexivity.
Qed.

(** * Further properties on the sample workbooks *)


(** The two files of the scenario, uploaded in either order. *)
Lemma upload_order_keys_free_witness :
  let fs := [uploaded "a.xlsx" bracket_frame; uploaded "b.xlsx" screw_frame] in
  let fs' := [uploaded "b.xlsx" screw_frame; uploaded "a.xlsx" bracket_frame] in
  Permutation fs fs' /\
  (map key_of (merged_df int_literal int_repr fs) =
   map key_of (merged_df int_literal int_repr fs') /\
   forall t u, Permutation t u ->
               map key_of (merge_rows t) = map key_of (merge_rows u)).
Proof.
  intros fs fs'.
  assert (Hp : Permutation fs fs') by apply perm_swap.
  split; [exact Hp|].
  exact (upload_order_keys_free int_literal int_repr fs fs' Hp).
Defined.

(** The padded sheet keeps its labels, its extra column and its row count. *)
Lemma clean_keeps_frame_shape_witness :
  clean int_literal int_repr padded_frame = Ok padded_cleaned /\
  (map fst padded_cleaned = map (fun col => strip (fst col)) padded_frame /\
   (forall a, ~ In a cleaned_labels ->
              getitem padded_cleaned a = getitem (strip_columns padded_frame) a) /\
   (forall a, List.length (column padded_cleaned a) =
              List.length (column (strip_columns padded_frame) a))).
Proof.
  assert (H : clean int_literal int_repr padded_frame = Ok padded_cleaned)
    by reflexivity.
  split; [exact H|].
  exact (clean_keeps_frame_shape int_literal int_repr padded_frame padded_cleaned H).
Defined.

(** The padded sheet, cleaned, is cleaned to itself. *)
Lemma clean_idempotent_witness :
  clean int_literal int_repr padded_frame = Ok padded_cleaned /\
  forallb text_or_missing (column (strip_columns padded_frame) "DESCRIPTION") = true /\
  clean int_literal int_repr padded_cleaned = Ok padded_cleaned.
Proof.
  assert (H : clean int_literal int_repr padded_frame = Ok padded_cleaned)
    by reflexivity.
  assert (Ht : forallb text_or_missing
                 (column (strip_columns padded_frame) "DESCRIPTION") = true)
    by reflexivity.
  split; [exact H|]. split; [exact Ht|].
  exact (clean_idempotent int_literal int_repr padded_frame padded_cleaned H Ht).
Defined.

(** The scenario ends with one table shown and one workbook offered. *)
Lemma merged_table_offered_witness :
  let fs := [uploaded "a.xlsx" bracket_frame; unreadable_upload] in
  existsb (fun f => is_ok (normalize int_literal int_repr f)) fs = true /\
  (tables_shown (screen (run int_literal int_repr fs)) =
     [merged_df int_literal int_repr fs] /\
   downloads (screen (run int_literal int_repr fs)) =
     [{| sheet_name := "Merged_BOM";
         header := ["PART NUMBER"; "DESCRIPTION"; "LENGTH"; "QTY."]%string;
         sheet_rows := merged_df int_literal int_repr fs |}] /\
   exists evs,
     screen (run int_literal int_repr fs) =
     evs ++ [st_download_button (to_excel (merged_df int_literal int_repr fs))
               "merged_bom.xlsx" xlsx_mime]).
Proof.
  intros fs.
  assert (H : existsb (fun f => is_ok (normalize int_literal int_repr f)) fs = true)
    by reflexivity.
  split; [exact H|].
  exact (merged_table_offered int_literal int_repr fs H).
Defined.

(** The bracket row of the second file has one merged row. *)
Lemma described_row_merged_once_witness :
  let fs := [uploaded "a.xlsx" bracket_frame; uploaded "b.xlsx" screw_frame] in
  let r := mkRow (Str "P1") (Str "Bracket") (Str "10") (Num 3) in
  In r (combined_df int_literal int_repr fs) /\
  DESCRIPTION r <> NaN /\ DESCRIPTION r <> Str "" /\
  exists o, members (key_of r) (merged_df int_literal int_repr fs) = [o] /\
            key_of o = key_of r.
Proof.
  intros fs r.
  assert (Hr : In r (combined_df int_literal int_repr fs))
    by (right; left; reflexivity).
  assert (H1 : DESCRIPTION r <> NaN) by discriminate.
  assert (H2 : DESCRIPTION r <> Str "") by discriminate.
  split; [exact Hr|]. split; [exact H1|]. split; [exact H2|].
  exact (described_row_merged_once int_literal int_repr fs r Hr H1 H2).
Defined.

(** An unreadable file between the two files of the scenario. *)
Lemma failed_file_reported_and_skipped_witness :
  let fs1 := [uploaded "a.xlsx" bracket_frame] in
  let fs2 := [uploaded "b.xlsx" screw_frame] in
  let f := unreadable_upload in
  normalize int_literal int_repr f = Raise ReadError /\
  (In (st_error (name f) ReadError)
      (screen (run int_literal int_repr (fs1 ++ f :: fs2))) /\
   In (name f) (error_files (run int_literal int_repr (fs1 ++ f :: fs2))) /\
   all_dataframes (run int_literal int_repr (fs1 ++ f :: fs2)) =
     all_dataframes (run int_literal int_repr (fs1 ++ fs2)) /\
   merged_df int_literal int_repr (fs1 ++ f :: fs2) =
     merged_df int_literal int_repr (fs1 ++ fs2)).
Proof.
  intros fs1 fs2 f.
  assert (H : normalize int_literal int_repr f = Raise ReadError) by reflexivity.
  split; [exact H|].
  exact (failed_file_reported_and_skipped int_literal int_repr fs1 fs2 f ReadError H).
Defined.


(** The padded sheet has five columns with distinct stripped headers and is
    cleaned. *)
Lemma clean_outcome_witness :
  padded_frame <> [] /\
  NoDup (map (fun col => strip (fst col)) padded_frame) /\
  exists df', clean int_literal int_repr padded_frame = Ok df'.
Proof.
  assert (H1 : padded_frame <> []) by discriminate.
  assert (H2 : NoDup (map (fun col => strip (fst col)) padded_frame)).
  { repeat constructor; simpl; intuition discriminate. }
  split; [exact H1|]. split; [exact H2|].
  apply (clean_outcome int_literal int_repr padded_frame H1 H2); reflexivity.
Defined.
